(** * dropchat: client-side session lifecycle and message exchange

    A shallow embedding of the browser-side code of the repository:
    - [DemoPage] (app/page.tsx): the landing / share / chat phase state and the
      upload request,
    - the [LandingPage] component: drop target and file picker,
    - the [useCustomChat] hook: identity from the path, project info, and the
      question / answer turn.

    Asynchronous functions are embedded as resumption trees ([Async]): the
    synchronous steps of the source are nodes of the tree and every [await]
    on the network is a [Fetch] node whose continuation receives the settled
    promise.  React state is a record; a call of a state setter is a
    [SetState] node.  The handlers of the source never read React state
    directly -- they only see the variables their closure captured at render
    time -- so those variables are explicit parameters of the embedded
    functions.  State updates of one handler run are applied in the order of
    the calls; the state is looked at when the handler has settled (React
    batches the updates of one tick into one render). *)

From Stdlib Require Import String Ascii List ZArith NArith Bool Lia DecimalString.
Import ListNotations.
Open Scope string_scope.

(* ================================================================== *)
(** ** JavaScript values used by the code *)
(* ================================================================== *)

Module JS.

(** [s.split(sep)] for a one-character separator: the segments between the
    occurrences of [sep]; never empty ([""] splits to [[""]]).  Rocq strings
    are byte sequences; the separator '/' is a single byte that never occurs
    inside a multi-byte character, so segments are cut where JavaScript cuts
    them. *)
Fixpoint split (sep : ascii) (s : string) : list string :=
  match s with
  | EmptyString => [EmptyString]
  | String c s' =>
      if Ascii.eqb c sep then EmptyString :: split sep s'
      else match split sep s' with
           | seg :: rest => String c seg :: rest
           | [] => [String c EmptyString]
           end
  end.

(** [parts.join(sep)]. *)
Fixpoint join (sep : ascii) (parts : list string) : string :=
  match parts with
  | [] => EmptyString
  | [seg] => seg
  | seg :: rest => seg ++ String sep (join sep rest)
  end.

(** [s.startsWith(p)]. *)
Definition startsWith (p s : string) : bool := String.prefix p s.

(** [s.endsWith(p)]. *)
Definition endsWith (p s : string) : bool :=
  let n := String.length s in
  let m := String.length p in
  (m <=? n)%nat && String.eqb (String.substring (n - m) m s) p.

(** The characters of [s] from position [n] on. *)
Fixpoint drop (n : nat) (s : string) : string :=
  match n, s with
  | O, _ => s
  | S n', String _ s' => drop n' s'
  | S _, EmptyString => EmptyString
  end.

(** [s.replace(pattern, replacement)] with a string pattern: only the FIRST
    occurrence of [pattern] is replaced (a replacement without '$' is
    inserted literally). *)
Fixpoint replace (pattern replacement s : string) : string :=
  if String.prefix pattern s then replacement ++ drop (String.length pattern) s
  else match s with
       | EmptyString => EmptyString
       | String c s' => String c (replace pattern replacement s')
       end.

(** Conversion of an integral number to a string, as in a template literal
    [`${n}`]. *)
Definition string_of_number (n : Z) : string :=
  NilZero.string_of_int (Z.to_int n).

(** Truthiness of a [string | null | undefined] value: [null], [undefined]
    and the empty string are falsy. *)
Definition truthy (v : option string) : bool :=
  match v with
  | None => false
  | Some s => negb (String.eqb s "")
  end.

(** Values that can be thrown or that a promise can reject with. *)
Inductive Thrown : Type :=
| Error (message : string)      (* [instanceof Error]: Error, TypeError, SyntaxError *)
| NonError.                     (* any other thrown value *)

End JS.

(* ================================================================== *)
(** ** Data exchanged with the backend *)
(* ================================================================== *)

Module File.
(** The fields of a DOM [File] that the code reads. *)
Record t : Type := { name : string; size : N; type : string }.
End File.

Inductive FormValue : Type :=
| FormFile (file : File.t)
| FormString (s : string).

(** [FormData]: entries in insertion order. *)
Definition FormData : Type := list (string * FormValue).

Definition append (formData : FormData) (key : string) (v : FormValue) : FormData :=
  (formData ++ [(key, v)])%list.

(** Body of [POST /api/create] on success. *)
Module CreateResult.
Record t : Type := { user_hash : string; project_id : string }.
End CreateResult.

(** [interface ChatRequest]. *)
Module ChatRequest.
Record t : Type := { user_hash : string; project_id : string; query : string }.
End ChatRequest.

(** [interface ChatResponse]; [error] is [None] when the field is absent. *)
Module ChatResponse.
Record t : Type :=
  { answer : string;
    sources : list string;
    processing_steps : list string;
    error : option string }.
End ChatResponse.

(** [interface ProjectInfo]. *)
Module ProjectInfo.
Record t : Type :=
  { project_id : string;
    project_name : string;
    description : option string;
    document_count : Z;
    total_chunks : Z;
    created_at : string;
    document_names : list string }.
End ProjectInfo.

(** The three requests the browser issues. *)
Inductive Request : Type :=
| POST_api_create (body : FormData)
| POST_api_chat (body : ChatRequest.t)
| GET_api_projects (user_hash project_id : string).

Definition url (req : Request) : string :=
  match req with
  | POST_api_create _ => "/api/create"
  | POST_api_chat _ => "/api/chat"
  | GET_api_projects u p => "/api/projects/" ++ u ++ "/" ++ p
  end.

(** The type the code reads the JSON body at. *)
Definition Payload (req : Request) : Type :=
  match req with
  | POST_api_create _ => CreateResult.t
  | POST_api_chat _ => ChatResponse.t
  | GET_api_projects _ _ => ProjectInfo.t
  end.

(** A fetch [Response]: [body] is what [response.json()] settles to, a value
    or the rejection of a malformed body. *)
Record Response (D : Type) : Type :=
  { status : N; statusText : string; body : D + JS.Thrown }.
Arguments status {D} _.
Arguments statusText {D} _.
Arguments body {D} _.

(** [response.ok]: the status is in the range 200-299. *)
Definition ok {D} (response : Response D) : bool :=
  (200 <=? status response)%N && (status response <=? 299)%N.

(* ================================================================== *)
(** ** Asynchronous functions *)
(* ================================================================== *)

Section Async.

Context {S : Type}.

(** The body of an [async] function over React state [S]. *)
Inductive Async (A : Type) : Type :=
| Return (a : A)
| Throw (e : JS.Thrown)
| SetState (f : S -> S) (k : Async A)
| Alert (msg : string) (k : Async A)
| Console (msg : string) (k : Async A)
| DateNow (k : Z -> Async A)
| Yield (k : Async A)
| Fetch (req : Request) (k : Response (Payload req) + JS.Thrown -> Async A).

Arguments Return {A} _.
Arguments Throw {A} _.
Arguments SetState {A} _ _.
Arguments Alert {A} _ _.
Arguments Console {A} _ _.
Arguments DateNow {A} _.
Arguments Yield {A} _.
Arguments Fetch {A} _ _.

Fixpoint bind {A B} (p : Async A) (f : A -> Async B) : Async B :=
  match p with
  | Return a => f a
  | Throw e => Throw e
  | SetState g k => SetState g (bind k f)
  | Alert msg k => Alert msg (bind k f)
  | Console msg k => Console msg (bind k f)
  | DateNow k => DateNow (fun t => bind (k t) f)
  | Yield k => Yield (bind k f)
  | Fetch req k => Fetch req (fun r => bind (k r) f)
  end.

(** [try { body } catch (err) { handler err }]. *)
Fixpoint try_catch {A} (body : Async A) (handler : JS.Thrown -> Async A) : Async A :=
  match body with
  | Return a => Return a
  | Throw e => handler e
  | SetState g k => SetState g (try_catch k handler)
  | Alert msg k => Alert msg (try_catch k handler)
  | Console msg k => Console msg (try_catch k handler)
  | DateNow k => DateNow (fun t => try_catch (k t) handler)
  | Yield k => Yield (try_catch k handler)
  | Fetch req k => Fetch req (fun r => try_catch (k r) handler)
  end.

(** [try { body } finally { fin }]: [fin] runs on every exit of [body]; the
    completion of [body] is kept unless [fin] itself throws. *)
Fixpoint finally {A} (body : Async A) (fin : Async unit) : Async A :=
  match body with
  | Return a => bind fin (fun _ => Return a)
  | Throw e => bind fin (fun _ => Throw e)
  | SetState g k => SetState g (finally k fin)
  | Alert msg k => Alert msg (finally k fin)
  | Console msg k => Console msg (finally k fin)
  | DateNow k => DateNow (fun t => finally (k t) fin)
  | Yield k => Yield (finally k fin)
  | Fetch req k => Fetch req (fun r => finally (k r) fin)
  end.

Definition try_catch_finally {A} (body : Async A)
    (handler : JS.Thrown -> Async A) (fin : Async unit) : Async A :=
  finally (try_catch body handler) fin.

Definition setState (f : S -> S) : Async unit := SetState f (Return tt).
Definition alert (msg : string) : Async unit := Alert msg (Return tt).
Definition console (msg : string) : Async unit := Console msg (Return tt).
Definition Date_now : Async Z := DateNow (fun t => Return t).

(** [await fetch(...)]: the response, or the rejection rethrown. *)
Definition fetch (req : Request) : Async (Response (Payload req)) :=
  Fetch req (fun r => match r with
                      | inl response => Return response
                      | inr e => Throw e
                      end).

(** [await response.json()]. *)
Definition json {D} (response : Response D) : Async D :=
  Yield (match body response with
         | inl data => Return data
         | inr e => Throw e
         end).

(** *** The world a function runs in *)

(** What the outside supplies: the settlement of the [n]-th request issued
    and the reading of the [n]-th look at the clock. *)
Record Env : Type :=
  { net : nat -> forall req : Request, Response (Payload req) + JS.Thrown;
    clock : nat -> Z }.

(** React state together with what the page has done so far. *)
Record World : Type :=
  { state : S;
    requests : list Request;      (* network calls issued, oldest first *)
    alerts : list string;         (* blocking notices shown *)
    logs : list string;           (* console output *)
    ticks : nat }.                (* number of clock readings *)

Definition boot (s : S) : World :=
  {| state := s; requests := []; alerts := []; logs := []; ticks := 0 |}.

Definition with_state (f : S -> S) (w : World) : World :=
  {| state := f (state w); requests := requests w; alerts := alerts w;
     logs := logs w; ticks := ticks w |}.

Definition with_request (req : Request) (w : World) : World :=
  {| state := state w; requests := (requests w ++ [req])%list; alerts := alerts w;
     logs := logs w; ticks := ticks w |}.

Definition with_alert (msg : string) (w : World) : World :=
  {| state := state w; requests := requests w; alerts := (alerts w ++ [msg])%list;
     logs := logs w; ticks := ticks w |}.

Definition with_log (msg : string) (w : World) : World :=
  {| state := state w; requests := requests w; alerts := alerts w;
     logs := (logs w ++ [msg])%list; ticks := ticks w |}.

Definition with_tick (w : World) : World :=
  {| state := state w; requests := requests w; alerts := alerts w;
     logs := logs w; ticks := Datatypes.S (ticks w) |}.

(** Where a function stands after its synchronous prefix. *)
Inductive Status (A : Type) : Type :=
| Settled (r : A + JS.Thrown)
| Pending (req : Request) (k : Response (Payload req) + JS.Thrown -> Async A)
| Resumable (k : Async A).
Arguments Settled {A} _.
Arguments Pending {A} _ _.
Arguments Resumable {A} _.

Variable env : Env.

(** Run up to the next [await]: everything the function does before control
    returns to the event loop. *)
Fixpoint advance {A} (p : Async A) (w : World) : World * Status A :=
  match p with
  | Return a => (w, Settled (inl a))
  | Throw e => (w, Settled (inr e))
  | SetState f k => advance k (with_state f w)
  | Alert msg k => advance k (with_alert msg w)
  | Console msg k => advance k (with_log msg w)
  | DateNow k => advance (k (clock env (ticks w))) (with_tick w)
  | Yield k => (w, Resumable k)
  | Fetch req k => (with_request req w, Pending req k)
  end.

(** Run to completion with nothing else scheduled in between: each request
    settles as [env] says. *)
Fixpoint run {A} (p : Async A) (w : World) : World * (A + JS.Thrown) :=
  match p with
  | Return a => (w, inl a)
  | Throw e => (w, inr e)
  | SetState f k => run k (with_state f w)
  | Alert msg k => run k (with_alert msg w)
  | Console msg k => run k (with_log msg w)
  | DateNow k => run (k (clock env (ticks w))) (with_tick w)
  | Yield k => run k w
  | Fetch req k =>
      run (k (net env (List.length (requests w)) req)) (with_request req w)
  end.

(** The world after an event handler that ignores the promise returned. *)
Definition exec {A} (p : Async A) (w : World) : World := fst (run p w).

End Async.

Arguments Async : clear implicits.
Arguments World : clear implicits.
Arguments Status : clear implicits.

Notation "x <- c1 ;; c2" := (bind c1 (fun x => c2))
  (at level 61, c1 at next level, right associativity).
Notation "c1 ;; c2" := (bind c1 (fun _ => c2))
  (at level 61, right associativity).

Arguments Return {S A} _.
Arguments Throw {S A} _.
Arguments SetState {S A} _ _.
Arguments Alert {S A} _ _.
Arguments Console {S A} _ _.
Arguments DateNow {S A} _.
Arguments Yield {S A} _.
Arguments Fetch {S A} _ _.
Arguments Settled {S A} _.
Arguments Pending {S A} _ _.
Arguments Resumable {S A} _.

(* ================================================================== *)
(** ** app/page.tsx and components/landing-page.tsx *)
(* ================================================================== *)

(** [type AppState = 'landing' | 'share' | 'chat']. *)
Inductive AppState : Type := landing | share | chat.

(** The React state of the top-level page: [appState] and [chatId] belong to
    [DemoPage]; [dragOver], [uploading] and [uploadingFileName] to the
    [LandingPage] it renders. *)
Record Page : Type :=
  { appState : AppState;
    chatId : option string;
    dragOver : bool;
    uploading : bool;
    uploadingFileName : string }.

Definition setAppState (v : AppState) : Async Page unit :=
  setState (fun s => {| appState := v; chatId := chatId s; dragOver := dragOver s;
                        uploading := uploading s;
                        uploadingFileName := uploadingFileName s |}).

Definition setChatId (v : option string) : Async Page unit :=
  setState (fun s => {| appState := appState s; chatId := v; dragOver := dragOver s;
                        uploading := uploading s;
                        uploadingFileName := uploadingFileName s |}).

Definition setDragOver (v : bool) : Async Page unit :=
  setState (fun s => {| appState := appState s; chatId := chatId s; dragOver := v;
                        uploading := uploading s;
                        uploadingFileName := uploadingFileName s |}).

Definition setUploading (v : bool) : Async Page unit :=
  setState (fun s => {| appState := appState s; chatId := chatId s;
                        dragOver := dragOver s; uploading := v;
                        uploadingFileName := uploadingFileName s |}).

Definition setUploadingFileName (v : string) : Async Page unit :=
  setState (fun s => {| appState := appState s; chatId := chatId s;
                        dragOver := dragOver s; uploading := uploading s;
                        uploadingFileName := v |}).

Module DemoPage.

(** [useState('landing')], [useState(null)] (and the initial state of the
    landing page: nothing dragged, nothing uploading). *)
Definition initial : Page :=
  {| appState := landing; chatId := None; dragOver := false;
     uploading := false; uploadingFileName := "" |}.

(** The mount effect; [currentPath] is [window.location.pathname]. *)
Definition useEffect (currentPath : string) : Async Page unit :=
  if JS.startsWith "/chat/" currentPath then
    setChatId (Some currentPath) ;;
    setAppState chat
  else Return tt.

Definition handleFileUpload (file : File.t) : Async Page string :=
  console ("Uploading file: " ++ File.name file) ;;
  try_catch
    (let formData : FormData := [] in
     let formData := append formData "files" (FormFile file) in
     let formData :=
       append formData "project_name"
              (FormString (JS.replace ".pdf" "" (File.name file))) in
     response <- fetch (POST_api_create formData) ;;
     (if negb (ok response)
      then Throw (JS.Error ("Upload failed: " ++ statusText response))
      else Return tt) ;;
     result <- json response ;;
     let chatUrl :=
       "/chat/" ++ CreateResult.user_hash result ++ "/"
                ++ CreateResult.project_id result in
     setChatId (Some chatUrl) ;;
     setAppState share ;;
     Return chatUrl)
    (fun error =>
       console "Upload error:" ;;
       Throw error).

Definition handleCreateNew : Async Page unit :=
  setChatId None ;;
  setAppState landing.

Definition generateChatUrl (baseUrl chatPath : string) : string :=
  baseUrl ++ chatPath.

(** What [renderContent] shows. *)
Inductive Screen : Type :=
| LandingPage_screen                 (* <LandingPage onFileUpload={handleFileUpload} /> *)
| SharePage_screen (chatId : option string)   (* <SharePage ... onCreateNew={handleCreateNew} /> *)
| Thread_screen.                     (* <Thread /> inside its providers *)

Definition renderContent (s : Page) : Screen :=
  match appState s with
  | landing => LandingPage_screen
  | share => SharePage_screen (chatId s)
  | chat => Thread_screen
  end.

End DemoPage.

Module LandingPage.

Section Props.

(** The [onFileUpload] prop. *)
Variable onFileUpload : File.t -> Async Page string.

Definition handleDragOver : Async Page unit := setDragOver true.

Definition handleDragLeave : Async Page unit := setDragOver false.

Definition handleFileUpload (file : File.t) : Async Page unit :=
  if (15 * 1024 * 1024 <? File.size file)%N then
    (* 15MB limit *)
    alert "File size must be less than 15MB"
  else
    setUploadingFileName (File.name file) ;;
    setUploading true ;;
    try_catch_finally
      (_ <- onFileUpload file ;; Return tt)
      (fun error =>
         console "Upload failed:" ;;
         alert "Upload failed. Please try again.")
      (setUploading false ;;
       setUploadingFileName "").

(** [files] is [e.dataTransfer.files]. *)
Definition handleDrop (files : list File.t) : Async Page unit :=
  setDragOver false ;;
  let pdfFile :=
    List.find (fun file => String.eqb (File.type file) "application/pdf") files in
  match pdfFile with
  | Some pdfFile => handleFileUpload pdfFile
  | None => Return tt
  end.

(** [files] is [e.target.files]. *)
Definition handleFileInputChange (files : list File.t) : Async Page unit :=
  let file := nth_error files 0 in
  match file with
  | Some file => handleFileUpload file
  | None => Return tt
  end.

End Props.

End LandingPage.

(** *** The page as a whole *)

(** What the visitor can do to the page. *)
Inductive PageEvent : Type :=
| DragOver
| DragLeave
| Drop (files : list File.t)
| FileInputChange (files : list File.t)
| CreateNew.

(** The handler an event reaches, given what is on screen: the landing page
    handlers exist only on the landing screen, "Create Another" only on the
    share screen. *)
Definition handler (s : Page) (ev : PageEvent) : Async Page unit :=
  match DemoPage.renderContent s, ev with
  | DemoPage.LandingPage_screen, DragOver => LandingPage.handleDragOver
  | DemoPage.LandingPage_screen, DragLeave => LandingPage.handleDragLeave
  | DemoPage.LandingPage_screen, Drop files =>
      LandingPage.handleDrop DemoPage.handleFileUpload files
  | DemoPage.LandingPage_screen, FileInputChange files =>
      LandingPage.handleFileInputChange DemoPage.handleFileUpload files
  | DemoPage.SharePage_screen _, CreateNew => DemoPage.handleCreateNew
  | _, _ => Return tt
  end.

Definition dispatch (env : Env) (w : World Page) (ev : PageEvent) : World Page :=
  exec env (handler (state w) ev) w.

(** Mounting [DemoPage] at a location. *)
Definition mountPage (env : Env) (currentPath : string) : World Page :=
  exec env (DemoPage.useEffect currentPath) (boot DemoPage.initial).

(** The page after a sequence of events, each handled to completion. *)
Definition page (env : Env) (currentPath : string) (events : list PageEvent)
  : World Page :=
  fold_left (dispatch env) events (mountPage env currentPath).

(* ================================================================== *)
(** ** hooks/use-custom-chat.ts *)
(* ================================================================== *)

(** The [Message] of the LangGraph SDK, as far as the hook builds it. *)
Module Message.
Inductive MessageType : Type := human | ai.
(** [{ type: 'text', text }]. *)
Inductive ContentBlock : Type := text (text : string).
Record t : Type :=
  { id : string; type : MessageType; content : list ContentBlock }.
End Message.

Module useCustomChat.

(** The four [useState] cells of the hook. *)
Record State : Type :=
  { messages : list Message.t;
    isLoading : bool;
    error : option string;
    documentName : option string }.

Definition initial : State :=
  {| messages := []; isLoading := false; error := None; documentName := None |}.

Definition setMessages (f : list Message.t -> list Message.t) : Async State unit :=
  setState (fun s => {| messages := f (messages s); isLoading := isLoading s;
                        error := error s; documentName := documentName s |}).

Definition setIsLoading (v : bool) : Async State unit :=
  setState (fun s => {| messages := messages s; isLoading := v;
                        error := error s; documentName := documentName s |}).

Definition setError (v : option string) : Async State unit :=
  setState (fun s => {| messages := messages s; isLoading := isLoading s;
                        error := v; documentName := documentName s |}).

Definition setDocumentName (v : option string) : Async State unit :=
  setState (fun s => {| messages := messages s; isLoading := isLoading s;
                        error := error s; documentName := v |}).

Record ChatParams : Type := { user_hash : string; project_id : string }.

(** Extract user_hash and project_id from URL path.  [pathname] is the free
    variable of the callback (its only dependency). *)
Definition getChatParams (pathname : string) : option ChatParams :=
  let pathParts := JS.split "/" pathname in
  if (4 <=? List.length pathParts)%nat
     && match nth_error pathParts 1 with
        | Some part => String.eqb part "chat"
        | None => false
        end
  then Some {| user_hash := nth 2 pathParts "";
               project_id := nth 3 pathParts "" |}
  else None.

(** The effect that fetches project info on load. *)
Definition loadProjectInfo (pathname : string) : Async State unit :=
  let chatParams := getChatParams pathname in
  match chatParams with
  | None => Return tt
  | Some chatParams =>
      try_catch
        (response <- fetch (GET_api_projects (user_hash chatParams)
                                             (project_id chatParams)) ;;
         if ok response then
           projectInfo <- json response ;;
           if (0 <? List.length (ProjectInfo.document_names projectInfo))%nat
           then (* Take first document *)
             setDocumentName (nth_error (ProjectInfo.document_names projectInfo) 0)
           else Return tt
         else Return tt)
        (fun error =>
           (* Don't set an error - this is non-critical for chat functionality *)
           console "Failed to load project info:")
  end.

(** [new Error(message)]. *)
Definition new_Error (message : option string) : JS.Thrown :=
  JS.Error (match message with Some m => m | None => "" end).

(** [sendMessage]; [pathname] (through [getChatParams]) and [documentName]
    are the variables of the enclosing render that the callback closes
    over. *)
Definition sendMessage (pathname : string) (documentName : option string)
    (messageText : string) : Async State unit :=
  let chatParams := getChatParams pathname in
  match chatParams with
  | None => setError (Some "Invalid chat URL format")
  | Some chatParams =>
      setIsLoading true ;;
      setError None ;;
      (* Add human message immediately (LangGraph format) *)
      now <- Date_now ;;
      let humanMessage :=
        {| Message.id := "human-" ++ JS.string_of_number now;
           Message.type := Message.human;
           Message.content := [Message.text messageText] |} in
      setMessages (fun prev => prev ++ [humanMessage])%list ;;
      try_catch_finally
        ((* Call the backend /chat endpoint *)
         response <- fetch (POST_api_chat
                              {| ChatRequest.user_hash := user_hash chatParams;
                                 ChatRequest.project_id := project_id chatParams;
                                 ChatRequest.query := messageText |}) ;;
         (if negb (ok response)
          then Throw (JS.Error ("Chat request failed: " ++ statusText response))
          else Return tt) ;;
         data <- json response ;;
         (if JS.truthy (ChatResponse.error data)
          then Throw (new_Error (ChatResponse.error data))
          else Return tt) ;;
         (* Extract document name from sources (first time only) *)
         (if negb (JS.truthy documentName)
             && (0 <? List.length (ChatResponse.sources data))%nat
          then setDocumentName (nth_error (ChatResponse.sources data) 0)
          else Return tt) ;;
         (* Add AI response (LangGraph format) *)
         now <- Date_now ;;
         let aiMessage :=
           {| Message.id := "ai-" ++ JS.string_of_number now;
              Message.type := Message.ai;
              Message.content := [Message.text (ChatResponse.answer data)] |} in
         setMessages (fun prev => prev ++ [aiMessage])%list)
        (fun err =>
           let errorMessage :=
             match err with
             | JS.Error message => message
             | JS.NonError => "Unknown error occurred"
             end in
           setError (Some errorMessage) ;;
           console "Chat error:")
        (setIsLoading false)
  end.

(** *** The hook across renders *)

(** The memoized [sendMessage]: [useCallback(..., [getChatParams])] keeps the
    function of the render in which [getChatParams] last changed, that is, in
    which [pathname] last changed.  [documentName] is not among the
    dependencies, so the callback keeps the [documentName] of that render. *)
Record Closure : Type :=
  { closure_pathname : string;
    closure_documentName : option string }.

Definition useCallback (previous : option Closure) (pathname : string)
    (documentName : option string) : Closure :=
  match previous with
  | Some c =>
      if String.eqb (closure_pathname c) pathname then c
      else {| closure_pathname := pathname; closure_documentName := documentName |}
  | None => {| closure_pathname := pathname; closure_documentName := documentName |}
  end.

(** A mounted hook: its state and effects so far, and the callback the last
    render returned. *)
Record Hook : Type :=
  { world : World State;
    memo : Closure }.

(** First render at [pathname], then the effect. *)
Definition mount (env : Env) (pathname : string) : Hook :=
  {| world := exec env (loadProjectInfo pathname) (boot initial);
     memo := useCallback None pathname (documentName initial) |}.

Inductive ChatEvent : Type :=
| Send (messageText : string)        (* the thread submits a question *)
| Navigate (pathname : string).      (* [usePathname()] returns a new path *)

Definition step (env : Env) (h : Hook) (ev : ChatEvent) : Hook :=
  match ev with
  | Send messageText =>
      {| world := exec env (sendMessage (closure_pathname (memo h))
                                        (closure_documentName (memo h))
                                        messageText) (world h);
         memo := memo h |}
  | Navigate pathname =>
      if String.eqb (closure_pathname (memo h)) pathname then h
      else
        {| world := exec env (loadProjectInfo pathname) (world h);
           memo := useCallback (Some (memo h)) pathname
                               (documentName (state (world h))) |}
  end.

(** The hook after a sequence of events, each handled to completion. *)
Definition session (env : Env) (pathname : string) (events : list ChatEvent)
  : Hook :=
  fold_left (step env) events (mount env pathname).

End useCustomChat.

(* ================================================================== *)
(** ** Vocabulary of the properties *)
(* ================================================================== *)

(** [c] occurs in [s]. *)
Fixpoint occurs (c : ascii) (s : string) : bool :=
  match s with
  | EmptyString => false
  | String d s' => Ascii.eqb d c || occurs c s'
  end.

(** The file name without a trailing [suffix]; the name itself when it does
    not end in [suffix]. *)
Definition without_suffix (suffix s : string) : string :=
  if JS.endsWith suffix s
  then String.substring 0 (String.length s - String.length suffix) s
  else s.

(** The request creates a session ([POST /api/create]). *)
Definition is_create (req : Request) : bool :=
  match req with
  | POST_api_create _ => true
  | _ => false
  end.

(** The [project_name] entries of a create request. *)
Definition project_names (req : Request) : list FormValue :=
  match req with
  | POST_api_create formData =>
      map snd (filter (fun entry => String.eqb (fst entry) "project_name") formData)
  | _ => []
  end.

(** The form [DemoPage.handleFileUpload] posts for a file. *)
Definition create_form (file : File.t) : FormData :=
  [("files", FormFile file);
   ("project_name", FormString (JS.replace ".pdf" "" (File.name file)))].

(** The file is typed as a PDF. *)
Definition is_pdf (file : File.t) : bool :=
  String.eqb (File.type file) "application/pdf".

(** The size limit of the landing page: 15 MiB. *)
Definition size_limit : N := 15 * 1024 * 1024.

(** The invariant of the phase state: a path is stored exactly in the share
    and chat phases. *)
Definition phase_invariant (s : Page) : Prop :=
  chatId s <> None <-> (appState s = share \/ appState s = chat).

(** The chat request [sendMessage] issues for [chatParams] and a question. *)
Definition chat_request (chatParams : useCustomChat.ChatParams) (messageText : string)
  : Request :=
  POST_api_chat
    {| ChatRequest.user_hash := useCustomChat.user_hash chatParams;
       ChatRequest.project_id := useCustomChat.project_id chatParams;
       ChatRequest.query := messageText |}.

(** The backend answered the chat request with a success status and a body
    [data] that carries no (truthy) error. *)
Definition chat_success (r : Response ChatResponse.t + JS.Thrown)
    (data : ChatResponse.t) : Prop :=
  exists response,
    r = inl response /\ ok response = true /\ body response = inl data
    /\ JS.truthy (ChatResponse.error data) = false.

(** The backend answered with a non-success status, or with a success status
    and a body whose [error] is a non-empty string. *)
Definition chat_failure (r : Response ChatResponse.t + JS.Thrown) : Prop :=
  exists response,
    r = inl response
    /\ (ok response = false
        \/ (ok response = true
            /\ exists data, body response = inl data
                            /\ JS.truthy (ChatResponse.error data) = true)).

Definition human_message (now : Z) (messageText : string) : Message.t :=
  {| Message.id := "human-" ++ JS.string_of_number now;
     Message.type := Message.human;
     Message.content := [Message.text messageText] |}.

Definition ai_message (now : Z) (answer : string) : Message.t :=
  {| Message.id := "ai-" ++ JS.string_of_number now;
     Message.type := Message.ai;
     Message.content := [Message.text answer] |}.

(** [exits_with P p]: on every path through [p], whatever the requests
    settle to and whatever else runs while [p] is suspended, the last thing
    [p] does before it settles is a state update that establishes [P]. *)
Inductive exits_with {S A : Type} (P : S -> Prop) : Async S A -> Prop :=
| exits_return (f : S -> S) (a : A) :
    (forall s, P (f s)) -> exits_with P (SetState f (Return a))
| exits_throw (f : S -> S) (e : JS.Thrown) :
    (forall s, P (f s)) -> exits_with P (SetState f (Throw e))
| exits_SetState (f : S -> S) (k : Async S A) :
    exits_with P k -> exits_with P (SetState f k)
| exits_Alert (msg : string) (k : Async S A) :
    exits_with P k -> exits_with P (Alert msg k)
| exits_Console (msg : string) (k : Async S A) :
    exits_with P k -> exits_with P (Console msg k)
| exits_DateNow (k : Z -> Async S A) :
    (forall t, exits_with P (k t)) -> exits_with P (DateNow k)
| exits_Yield (k : Async S A) :
    exits_with P k -> exits_with P (Yield k)
| exits_Fetch (req : Request) (k : Response (Payload req) + JS.Thrown -> Async S A) :
    (forall r, exits_with P (k r)) -> exits_with P (Fetch req k).

(** *** Sample backends *)

(** A backend given by its replies: one for the create request, one for the
    project info request, and one for the chat request according to the number
    of requests issued before it. *)
Definition backend
    (create : Response CreateResult.t + JS.Thrown)
    (project : Response ProjectInfo.t + JS.Thrown)
    (chat : nat -> Response ChatResponse.t + JS.Thrown)
    (clock : nat -> Z) : Env :=
  {| net := fun n req =>
       match req return Response (Payload req) + JS.Thrown with
       | POST_api_create _ => create
       | POST_api_chat _ => chat n
       | GET_api_projects _ _ => project
       end;
     clock := clock |}.

Definition reply {D} (status : N) (statusText : string) (data : D)
  : Response D + JS.Thrown :=
  inl {| status := status; statusText := statusText; body := inl data |}.

Definition created (user_hash project_id : string) : Response CreateResult.t + JS.Thrown :=
  reply 200 "OK" {| CreateResult.user_hash := user_hash;
                    CreateResult.project_id := project_id |}.

Definition project_info (document_names : list string)
  : Response ProjectInfo.t + JS.Thrown :=
  reply 200 "OK"
        {| ProjectInfo.project_id := "p1"; ProjectInfo.project_name := "spec";
           ProjectInfo.description := None; ProjectInfo.document_count := 1;
           ProjectInfo.total_chunks := 12; ProjectInfo.created_at := "2025-01-01";
           ProjectInfo.document_names := document_names |}.

Definition answered (answer : string) (sources : list string) (error : option string)
  : Response ChatResponse.t + JS.Thrown :=
  reply 200 "OK"
        {| ChatResponse.answer := answer; ChatResponse.sources := sources;
           ChatResponse.processing_steps := []; ChatResponse.error := error |}.

Definition server_error {D} : Response D + JS.Thrown :=
  inl {| status := 500; statusText := "Internal Server Error";
         body := inr (JS.Error "Unexpected token") |}.

(** A clock that advances by one millisecond per reading. *)
Definition sample_clock (n : nat) : Z := (1700000000000 + Z.of_nat n)%Z.

(** The backend of the examples: creation yields abc/123, the project names
    "spec.pdf", every question is answered. *)
Definition sample_env : Env :=
  backend (created "abc" "123") (project_info ["spec.pdf"])
          (fun _ => answered "It is a specification." ["spec.pdf"] None)
          sample_clock.

(** The backend that fails every chat request with HTTP 500. *)
Definition failing_env : Env :=
  backend (created "abc" "123") (project_info ["spec.pdf"])
          (fun _ => server_error) sample_clock.

(** The backend whose answers carry an [error] field that is present but
    empty. *)
Definition empty_error_env : Env :=
  backend (created "abc" "123") (project_info [])
          (fun _ => answered "It is a specification." [] (Some ""))
          sample_clock.

Definition sample_file : File.t :=
  {| File.name := "spec.pdf"; File.size := 2048; File.type := "application/pdf" |}.

Definition sample_data : ChatResponse.t :=
  {| ChatResponse.answer := "It is a specification.";
     ChatResponse.sources := ["spec.pdf"];
     ChatResponse.processing_steps := [];
     ChatResponse.error := None |}.

Definition abc_123 : useCustomChat.ChatParams :=
  {| useCustomChat.user_hash := "abc"; useCustomChat.project_id := "123" |}.

Definition question : string := "What is this about?".

(** *** Vocabulary of the further properties *)

(** What a rejected promise or a thrown value leaves in the error state. *)
Definition error_text (err : JS.Thrown) : string :=
  match err with
  | JS.Error message => message
  | JS.NonError => "Unknown error occurred"
  end.

(** The error a turn ends with, read off how the chat request settled;
    [None] for a success. *)
Definition turn_error (r : Response ChatResponse.t + JS.Thrown) : option string :=
  match r with
  | inr err => Some (error_text err)
  | inl response =>
      if ok response then
        match body response with
        | inr err => Some (error_text err)
        | inl data =>
            match ChatResponse.error data with
            | Some e => if String.eqb e "" then None else Some e
            | None => None
            end
        end
      else Some ("Chat request failed: " ++ statusText response)
  end.

(** The document name a project info reply offers: the first name of a
    readable success reply. *)
Definition offered_name (r : Response ProjectInfo.t + JS.Thrown) : option string :=
  match r with
  | inl response =>
      if ok response then
        match body response with
        | inl projectInfo => nth_error (ProjectInfo.document_names projectInfo) 0
        | inr _ => None
        end
      else None
  | inr _ => None
  end.

(** A history in which every ai message comes right after a human message;
    [after_human] tells whether the message before the list was human. *)
Fixpoint answers_follow (after_human : bool) (history : list Message.t) : bool :=
  match history with
  | [] => true
  | m :: rest =>
      match Message.type m with
      | Message.human => answers_follow true rest
      | Message.ai => after_human && answers_follow false rest
      end
  end.

Definition count_type (t : Message.MessageType) (history : list Message.t) : nat :=
  List.length (filter (fun m => match Message.type m, t with
                                | Message.human, Message.human => true
                                | Message.ai, Message.ai => true
                                | _, _ => false
                                end) history).

(** The questions among the events of a session. *)
Definition sends (events : list useCustomChat.ChatEvent) : nat :=
  List.length (filter (fun ev => match ev with
                                 | useCustomChat.Send _ => true
                                 | useCustomChat.Navigate _ => false
                                 end) events).

Definition no_navigation (events : list useCustomChat.ChatEvent) : Prop :=
  Forall (fun ev => match ev with
                    | useCustomChat.Send _ => True
                    | useCustomChat.Navigate _ => False
                    end) events.

(* ================================================================== *)
(** ** Handlers over other effects *)
(* ================================================================== *)

(** The route handlers and the remaining components call other things than
    the three browser requests above (the upstream backend, the clipboard,
    timers).  [Proc] is the same kind of tree as [Async], over any state [S]
    and any signature of calls [E] with results [R]: a call either returns
    a result or throws (rejects). *)
Section Proc.

Context {S : Type} {E : Type} {R : E -> Type}.

Inductive Proc (A : Type) : Type :=
| Done (a : A)
| Raise (e : JS.Thrown)
| Update (f : S -> S) (k : Proc A)
| Call (e : E) (k : R e + JS.Thrown -> Proc A).

Arguments Done {A} _.
Arguments Raise {A} _.
Arguments Update {A} _ _.
Arguments Call {A} _ _.

Fixpoint pbind {A B} (p : Proc A) (f : A -> Proc B) : Proc B :=
  match p with
  | Done a => f a
  | Raise e => Raise e
  | Update g k => Update g (pbind k f)
  | Call e k => Call e (fun r => pbind (k r) f)
  end.

(** [try { body } catch (err) { handler err }]. *)
Fixpoint ptry {A} (body : Proc A) (handler : JS.Thrown -> Proc A) : Proc A :=
  match body with
  | Done a => Done a
  | Raise e => handler e
  | Update g k => Update g (ptry k handler)
  | Call e k => Call e (fun r => ptry (k r) handler)
  end.

(** [try { body } finally { fin }]. *)
Fixpoint pfinally {A} (body : Proc A) (fin : Proc unit) : Proc A :=
  match body with
  | Done a => pbind fin (fun _ => Done a)
  | Raise e => pbind fin (fun _ => Raise e)
  | Update g k => Update g (pfinally k fin)
  | Call e k => Call e (fun r => pfinally (k r) fin)
  end.

(** A call whose result is used; a rejection is rethrown. *)
Definition call (e : E) : Proc (R e) :=
  Call e (fun r => match r with
                   | inl v => Done v
                   | inr err => Raise err
                   end).

(** A call made for its effect only (its result is not looked at). *)
Definition perform (e : E) : Proc unit := Call e (fun _ => Done tt).

(** The settled value of a promise that is already at hand (the body of a
    response): the value, or the rejection rethrown. *)
Definition settled {A} (r : A + JS.Thrown) : Proc A :=
  match r with
  | inl v => Done v
  | inr err => Raise err
  end.

Definition update (f : S -> S) : Proc unit := Update f (Done tt).

(** What the outside answers to the [n]-th call. *)
Definition Oracle : Type := nat -> forall e : E, R e + JS.Thrown.

(** Run to completion: the final state, the calls made (oldest first) and
    the completion. *)
Fixpoint play {A} (oracle : Oracle) (p : Proc A) (s : S) (calls : list E)
  : S * list E * (A + JS.Thrown) :=
  match p with
  | Done a => (s, calls, inl a)
  | Raise e => (s, calls, inr e)
  | Update f k => play oracle k (f s) calls
  | Call e k =>
      play oracle (k (oracle (List.length calls) e)) s (calls ++ [e])%list
  end.

End Proc.

Arguments Proc : clear implicits.
Arguments Oracle : clear implicits.
Arguments Done {S E R A} _.
Arguments Raise {S E R A} _.
Arguments Update {S E R A} _ _.
Arguments Call {S E R A} _ _.

Notation "x <~ c1 ;; c2" := (pbind c1 (fun x => c2))
  (at level 61, c1 at next level, right associativity).
Notation "c1 ;;; c2" := (pbind c1 (fun _ => c2))
  (at level 61, right associativity).

(* ================================================================== *)
(** ** app/api: the routes that relay to the backend *)
(* ================================================================== *)

Module Relay.

Section Json.

(** The JSON documents of the backend; the routes pass them on unread. *)
Variable Json : Type.

Inductive Method : Type := GET_method | POST_method.

(** The three fields the chat route forwards ([JSON.stringify] of them). *)
Record ChatBody : Type :=
  { body_user_hash : string; body_project_id : string; body_query : string }.

(** A request to the backend. *)
Record UpstreamRequest : Type :=
  { upstream_url : string;
    upstream_method : Method;
    upstream_body : option ChatBody }.

(** The backend's response: [text] and [json] are what [response.text()]
    and [response.json()] settle to. *)
Record UpstreamResponse : Type :=
  { upstream_status : N;
    upstream_statusText : string;
    text : string + JS.Thrown;
    json : Json + JS.Thrown }.

(** [response.ok]. *)
Definition upstream_ok (response : UpstreamResponse) : bool :=
  (200 <=? upstream_status response)%N && (upstream_status response <=? 299)%N.

(** What a route does besides computing: requests to the backend and
    console output. *)
Inductive Effect : Type :=
| Upstream (req : UpstreamRequest)
| ConsoleLog (msg : string)
| ConsoleError (msg : string).

Definition Result (e : Effect) : Type :=
  match e with
  | Upstream _ => UpstreamResponse
  | ConsoleLog _ => unit
  | ConsoleError _ => unit
  end.

Definition Route (A : Type) : Type := Proc unit Effect Result A.

(** The body a route answers with: [{ error }] or the backend's document. *)
Inductive Body : Type :=
| ErrorBody (error : string)
| DataBody (data : Json).

Record NextResponse : Type :=
  { status : N; body : Body }.

(** The statuses a [Response] with a body can be constructed with: 200 to
    599, except the null body statuses 204, 205 and 304.  The constructor
    throws a RangeError or TypeError for the others. *)
Definition constructible (status : N) : bool :=
  (200 <=? status)%N && (status <=? 599)%N
  && negb ((status =? 204)%N || (status =? 205)%N || (status =? 304)%N).

(** [NextResponse.json(body, { status })]. *)
Definition NextResponse_json (body : Body) (status : N) : Route NextResponse :=
  if constructible status
  then Done {| status := status; body := body |}
  else Raise (JS.Error "Invalid response status code").

(** [process.env.NEXT_PUBLIC_BACKEND_URL || 'http://localhost:8000']. *)
Definition backendUrl (NEXT_PUBLIC_BACKEND_URL : option string) : string :=
  match NEXT_PUBLIC_BACKEND_URL with
  | Some v => if String.eqb v "" then "http://localhost:8000" else v
  | None => "http://localhost:8000"
  end.

Section Routes.

(** [process.env.NEXT_PUBLIC_BACKEND_URL]. *)
Variable NEXT_PUBLIC_BACKEND_URL : option string.

(** [interface ProjectInfoParams]. *)
Record ProjectInfoParams : Type := { userHash : string; projectId : string }.

(** [GET /api/projects/[userHash]/[projectId]]. *)
Definition GET (params : ProjectInfoParams) : Route NextResponse :=
  ptry
    (let userHash := userHash params in
     let projectId := projectId params in
     (* Validate required params *)
     if String.eqb userHash "" || String.eqb projectId ""
     then NextResponse_json (ErrorBody "Missing userHash or projectId") 400
     else
       (* Forward the request to the backend *)
       let backendUrl := backendUrl NEXT_PUBLIC_BACKEND_URL in
       response <~ call (Upstream
                           {| upstream_url := backendUrl ++ "/projects/" ++ userHash
                                                         ++ "/" ++ projectId;
                              upstream_method := GET_method;
                              upstream_body := None |}) ;;
       if negb (upstream_ok response) then
         errorText <~ settled (text response) ;;
         NextResponse_json (ErrorBody ("Backend error: " ++ errorText))
                           (upstream_status response)
       else
         data <~ settled (json response) ;;
         NextResponse_json (DataBody data) 200)
    (fun error =>
       perform (ConsoleError "Project info API route error:") ;;;
       NextResponse_json (ErrorBody "Internal server error") 500).

(** The parsed body of a chat request, as far as the route looks at it: a
    field is [None] when it is missing or null. *)
Record ChatFields : Type :=
  { user_hash : option string; project_id : option string; query : option string }.

Definition field_text (v : option string) : string :=
  match v with Some s => s | None => "" end.

(** [POST /api/chat]; [request_json] is what [request.json()] settles to,
    [None] being the document [null]. *)
Definition POST (request_json : option ChatFields + JS.Thrown) : Route NextResponse :=
  ptry
    (body <~ settled request_json ;;
     match body with
     | None => Raise (JS.Error "Cannot read properties of null")
     | Some body =>
         (* Validate required fields *)
         if negb (JS.truthy (user_hash body)) || negb (JS.truthy (project_id body))
            || negb (JS.truthy (query body))
         then NextResponse_json
                (ErrorBody "Missing required fields: user_hash, project_id, or query")
                400
         else
           (* Forward the request to the backend *)
           let backendUrl := backendUrl NEXT_PUBLIC_BACKEND_URL in
           perform (ConsoleLog "Sending to backend:") ;;;
           response <~ call (Upstream
                               {| upstream_url := backendUrl ++ "/chat";
                                  upstream_method := POST_method;
                                  upstream_body :=
                                    Some {| body_user_hash := field_text (user_hash body);
                                            body_project_id := field_text (project_id body);
                                            body_query := field_text (query body) |} |}) ;;
           perform (ConsoleLog "Backend response status:") ;;;
           if negb (upstream_ok response) then
             errorText <~ settled (text response) ;;
             perform (ConsoleError "Backend error:") ;;;
             NextResponse_json (ErrorBody ("Backend error: " ++ errorText))
                               (upstream_status response)
           else
             data <~ settled (json response) ;;
             perform (ConsoleLog "Backend response data:") ;;;
             NextResponse_json (DataBody data) 200
     end)
    (fun error =>
       perform (ConsoleError "Chat API route error:") ;;;
       NextResponse_json (ErrorBody "Internal server error") 500).

End Routes.

(** [response.ok] of what a route answers. *)
Definition answered_ok (response : NextResponse) : bool :=
  (200 <=? status response)%N && (status response <=? 299)%N.

(** The requests to the backend among the effects of a run. *)
Definition upstream_requests (effects : list Effect) : list UpstreamRequest :=
  flat_map (fun e => match e with
                     | Upstream req => [req]
                     | _ => []
                     end) effects.

(** Running a route against a backend. *)
Definition serve (oracle : Oracle Effect Result) (route : Route NextResponse)
  : list Effect * (NextResponse + JS.Thrown) :=
  let '(_, effects, r) := play oracle route tt [] in (effects, r).

Definition serve_GET (NEXT_PUBLIC_BACKEND_URL : option string)
    (oracle : Oracle Effect Result) (params : ProjectInfoParams) :=
  serve oracle (GET NEXT_PUBLIC_BACKEND_URL params).

Definition serve_POST (NEXT_PUBLIC_BACKEND_URL : option string)
    (oracle : Oracle Effect Result) (request_json : option ChatFields + JS.Thrown) :=
  serve oracle (POST NEXT_PUBLIC_BACKEND_URL request_json).

(** The request the project info route forwards. *)
Definition project_upstream (NEXT_PUBLIC_BACKEND_URL : option string)
    (params : ProjectInfoParams) : UpstreamRequest :=
  {| upstream_url := backendUrl NEXT_PUBLIC_BACKEND_URL ++ "/projects/"
                       ++ userHash params ++ "/" ++ projectId params;
     upstream_method := GET_method;
     upstream_body := None |}.

(** The request the chat route forwards. *)
Definition chat_upstream (NEXT_PUBLIC_BACKEND_URL : option string)
    (fields : ChatFields) : UpstreamRequest :=
  {| upstream_url := backendUrl NEXT_PUBLIC_BACKEND_URL ++ "/chat";
     upstream_method := POST_method;
     upstream_body := Some {| body_user_hash := field_text (user_hash fields);
                              body_project_id := field_text (project_id fields);
                              body_query := field_text (query fields) |} |}.

(** All three fields of a chat body are present and non-empty. *)
Definition complete (fields : ChatFields) : bool :=
  JS.truthy (user_hash fields) && JS.truthy (project_id fields)
  && JS.truthy (query fields).

End Json.

End Relay.

(** The browser receives what the chat route answered: the same status, and
    the backend's document as the JSON body when the route passed one on. *)
Definition delivered (relayed : Relay.NextResponse ChatResponse.t)
    (received : Response ChatResponse.t) : Prop :=
  status received = Relay.status _ relayed
  /\ forall data, Relay.body _ relayed = Relay.DataBody _ data ->
                  body received = inl data.

(** The body of the chat request the hook sends, as the route parses it. *)
Definition posted_fields (chatParams : useCustomChat.ChatParams) (messageText : string)
  : Relay.ChatFields :=
  {| Relay.user_hash := Some (useCustomChat.user_hash chatParams);
     Relay.project_id := Some (useCustomChat.project_id chatParams);
     Relay.query := Some messageText |}.


(* ================================================================== *)
(** ** The privacy overlay and the share page *)
(* ================================================================== *)

Module PrivacyOverlay.

(** The text of the email field as JavaScript has it: UTF-16 code units. *)
Definition JSString : Type := list N.

(** WhiteSpace and LineTerminator of ECMAScript, the code units
    [String.prototype.trim] removes. *)
Definition is_white_space (c : N) : bool :=
  ((9 <=? c) && (c <=? 13)           (* TAB, LF, VT, FF, CR *)
   || (c =? 32) || (c =? 160)        (* SPACE, NBSP *)
   || (c =? 5760)                    (* U+1680 *)
   || ((8192 <=? c) && (c <=? 8202)) (* U+2000 - U+200A *)
   || (c =? 8232) || (c =? 8233)     (* LS, PS *)
   || (c =? 8239) || (c =? 8287)     (* U+202F, U+205F *)
   || (c =? 12288) || (c =? 65279))%N (* U+3000, U+FEFF *).

Fixpoint trimStart (s : JSString) : JSString :=
  match s with
  | c :: rest => if is_white_space c then trimStart rest else s
  | [] => []
  end.

Definition trimEnd (s : JSString) : JSString := rev (trimStart (rev s)).

(** [s.trim()]. *)
Definition trim (s : JSString) : JSString := trimEnd (trimStart s).

(** Truthiness of a string value. *)
Definition truthy (s : JSString) : bool :=
  match s with [] => false | _ :: _ => true end.

(** [useState("")], [useState(false)], [useState(false)]. *)
Record State : Type :=
  { email : JSString; submitting : bool; submitted : bool }.

Definition initial : State :=
  {| email := []; submitting := false; submitted := false |}.

(** The JSON the form is posted with. *)
Record FormBody : Type :=
  { body_email : JSString; interest : string; source : string }.

Inductive Effect : Type :=
| PreventDefault
| PostForm (url : string) (body : FormBody)
| SetTimeout_onClose (ms : N)     (* [setTimeout(() => { onClose(); }, ms)] *)
| ConsoleError (msg : string)
| Alert (msg : string).

(** A fetch resolves with a response whatever its status; the handler does
    not look at it. *)
Definition Result (e : Effect) : Type :=
  match e with
  | PostForm _ _ => N      (* the HTTP status of the response *)
  | _ => unit
  end.

Definition Handler (A : Type) : Type := Proc State Effect Result A.

Definition setEmail (v : JSString) : Handler unit :=
  update (fun s => {| email := v; submitting := submitting s; submitted := submitted s |}).

Definition setSubmitting (v : bool) : Handler unit :=
  update (fun s => {| email := email s; submitting := v; submitted := submitted s |}).

Definition setSubmitted (v : bool) : Handler unit :=
  update (fun s => {| email := email s; submitting := submitting s; submitted := v |}).

(** [process.env.NEXT_PUBLIC_FORMSPARK_URL || "https://submit-form.com/your-form-id"]. *)
Definition FORMSPARK_ACTION_URL (NEXT_PUBLIC_FORMSPARK_URL : option string) : string :=
  match NEXT_PUBLIC_FORMSPARK_URL with
  | Some v => if String.eqb v "" then "https://submit-form.com/your-form-id" else v
  | None => "https://submit-form.com/your-form-id"
  end.

(** [onSubmit]; [email] is the state of the render the handler belongs to. *)
Definition onSubmit (NEXT_PUBLIC_FORMSPARK_URL : option string) (email : JSString)
  : Handler unit :=
  perform PreventDefault ;;;
  if negb (truthy (trim email)) then Done tt
  else
    setSubmitting true ;;;
    pfinally
      (ptry
         (_ <~ call (PostForm (FORMSPARK_ACTION_URL NEXT_PUBLIC_FORMSPARK_URL)
                              {| body_email := email;
                                 interest := "self-hosted-version";
                                 source := "privacy-overlay" |}) ;;
          setSubmitted true ;;;
          perform (SetTimeout_onClose 2000))
         (fun error =>
            perform (ConsoleError "Form submission failed:") ;;;
            perform (Alert "Failed to submit. Please try again.")))
      (setSubmitting false).

(** Only white space (or nothing) has been typed. *)
Definition blank (s : JSString) : bool := forallb is_white_space s.

(** The form posts among the effects of a run. *)
Definition posts (effects : list Effect) : list FormBody :=
  flat_map (fun e => match e with
                     | PostForm _ body => [body]
                     | _ => []
                     end) effects.

End PrivacyOverlay.

Module SharePage.

(** [useState(false)]. *)
Record State : Type := { copied : bool }.

Inductive Effect : Type :=
| ClipboardWriteText (text : string)     (* navigator.clipboard.writeText *)
| ConsoleError (msg : string)
| CreateTextArea                         (* document.createElement('textarea') *)
| SetValue (text : string)               (* textArea.value = ... *)
| AppendChild                            (* document.body.appendChild(textArea) *)
| Select                                 (* textArea.select() *)
| ExecCommand (command : string)         (* document.execCommand(...) *)
| RemoveChild                            (* document.body.removeChild(textArea) *)
| SetTimeout_resetCopied (ms : N)        (* [setTimeout(() => setCopied(false), ms)] *)
| WindowOpen (url target : string).

Definition Result (e : Effect) : Type :=
  match e with
  | ExecCommand _ => bool     (* whether the command succeeded *)
  | _ => unit
  end.

Definition Handler (A : Type) : Type := Proc State Effect Result A.

Definition setCopied (v : bool) : Handler unit :=
  update (fun _ => {| copied := v |}).

(** [handleCopyLink]; [chatUrl] is the prop. *)
Definition handleCopyLink (chatUrl : string) : Handler unit :=
  ptry
    (call (ClipboardWriteText chatUrl) ;;;
     setCopied true ;;;
     perform (SetTimeout_resetCopied 2000))
    (fun error =>
       perform (ConsoleError "Failed to copy link:") ;;;
       (* Fallback for browsers that don't support clipboard API *)
       call CreateTextArea ;;;
       call (SetValue chatUrl) ;;;
       call AppendChild ;;;
       call Select ;;;
       _ <~ call (ExecCommand "copy") ;;
       call RemoveChild ;;;
       setCopied true ;;;
       perform (SetTimeout_resetCopied 2000)).

Definition handleOpenInNewTab (chatUrl : string) : Handler unit :=
  call (WindowOpen chatUrl "_blank") ;;; Done tt.

(** What the timer of [handleCopyLink] does when it fires. *)
Definition resetCopied : Handler unit := setCopied false.

(** The delays of the timers set among the effects of a run. *)
Definition timers (effects : list Effect) : list N :=
  flat_map (fun e => match e with
                     | SetTimeout_resetCopied ms => [ms]
                     | _ => []
                     end) effects.

(** The calls of the textarea fallback do not throw under [oracle]. *)
Definition fallback_available (oracle : Oracle Effect Result) : Prop :=
  forall (n : nat) (e : Effect),
    match e with
    | CreateTextArea | SetValue _ | AppendChild | Select | ExecCommand _
    | RemoveChild => exists v, oracle n e = inl v
    | _ => True
    end.

End SharePage.

(** *** Sample worlds of the further properties *)

(** A backend behind the routes that is overloaded: every request is
    answered 503 with a text. *)
Definition upstream_down : Oracle Relay.Effect (Relay.Result ChatResponse.t) :=
  fun _ e =>
    match e return Relay.Result ChatResponse.t e + JS.Thrown with
    | Relay.Upstream _ =>
        inl {| Relay.upstream_status := 503;
               Relay.upstream_statusText := "Service Unavailable";
               Relay.text := inl "overloaded";
               Relay.json := inr (JS.Error "Unexpected token") |}
    | Relay.ConsoleLog _ => inl tt
    | Relay.ConsoleError _ => inl tt
    end.

(** A backend behind the routes that answers every request with
    [sample_data]. *)
Definition upstream_up : Oracle Relay.Effect (Relay.Result ChatResponse.t) :=
  fun _ e =>
    match e return Relay.Result ChatResponse.t e + JS.Thrown with
    | Relay.Upstream _ =>
        inl {| Relay.upstream_status := 200;
               Relay.upstream_statusText := "OK";
               Relay.text := inl "";
               Relay.json := inl sample_data |}
    | Relay.ConsoleLog _ => inl tt
    | Relay.ConsoleError _ => inl tt
    end.

Definition sample_params : Relay.ProjectInfoParams :=
  {| Relay.userHash := "abc"; Relay.projectId := "123" |}.

(** What the browser receives from the chat route for a status without
    document. *)
Definition received_status (status : N) (statusText : string)
  : Response ChatResponse.t :=
  {| status := status; statusText := statusText;
     body := inr (JS.Error "Unexpected token") |}.

(** The browser's view when every chat request comes back with [status]. *)
Definition chat_status_env (status : N) (statusText : string) : Env :=
  backend (created "abc" "123") (project_info ["spec.pdf"])
          (fun _ => inl (received_status status statusText)) sample_clock.

Definition notes_file : File.t :=
  {| File.name := "notes.txt"; File.size := 10; File.type := "text/plain" |}.

(** A browser without clipboard API whose textarea fallback works, although
    [execCommand] reports failure. *)
Definition no_clipboard : Oracle SharePage.Effect SharePage.Result :=
  fun _ e =>
    match e return SharePage.Result e + JS.Thrown with
    | SharePage.ClipboardWriteText _ => inr (JS.Error "clipboard is undefined")
    | SharePage.ExecCommand _ => inl false
    | SharePage.ConsoleError _ => inl tt
    | SharePage.CreateTextArea => inl tt
    | SharePage.SetValue _ => inl tt
    | SharePage.AppendChild => inl tt
    | SharePage.Select => inl tt
    | SharePage.RemoveChild => inl tt
    | SharePage.SetTimeout_resetCopied _ => inl tt
    | SharePage.WindowOpen _ _ => inl tt
    end.

(* ================================================================== *)
(** ** Strings *)
(* ================================================================== *)

Section Split.

Variable sep : ascii.

Lemma split_not_nil (s : string) : JS.split sep s <> [].
Proof.
  destruct s as [|c s]; simpl; [discriminate|].
  destruct (Ascii.eqb c sep); [discriminate|].
  destruct (JS.split sep s); discriminate.
Qed.

Lemma split_length_pos (s : string) : (1 <= List.length (JS.split sep s))%nat.
Proof.
  pose proof (split_not_nil s) as H.
  destruct (JS.split sep s); [congruence|simpl; lia].
Qed.

Lemma split_sep (s : string) :
  JS.split sep (String sep s) = EmptyString :: JS.split sep s.
Proof. simpl. now rewrite Ascii.eqb_refl. Qed.

Lemma split_other (c : ascii) (s : string) :
  Ascii.eqb c sep = false ->
  exists seg rest,
    JS.split sep s = seg :: rest /\ JS.split sep (String c s) = String c seg :: rest.
Proof.
  intros Hc. simpl. rewrite Hc.
  pose proof (split_not_nil s) as H.
  destruct (JS.split sep s) as [|seg rest]; [congruence|].
  now exists seg, rest.
Qed.

(** Joining the segments gives the string back: nothing is lost by [split]. *)
Lemma join_split (s : string) : JS.join sep (JS.split sep s) = s.
Proof.
  induction s as [|c s IH]; [reflexivity|].
  destruct (Ascii.eqb c sep) eqn:Hc.
  - apply Ascii.eqb_eq in Hc. subst c. rewrite split_sep.
    pose proof (split_not_nil s) as H.
    simpl. destruct (JS.split sep s) as [|seg rest] eqn:E; [congruence|].
    simpl in IH |- *. now rewrite IH.
  - destruct (split_other c s Hc) as (seg & rest & E1 & E2).
    rewrite E2. rewrite E1 in IH.
    destruct rest as [|seg' rest]; simpl in IH |- *; now rewrite IH.
Qed.

(** No segment contains the separator. *)
Lemma split_segments (s : string) :
  Forall (fun seg => occurs sep seg = false) (JS.split sep s).
Proof.
  induction s as [|c s IH]; [repeat constructor|].
  destruct (Ascii.eqb c sep) eqn:Hc.
  - apply Ascii.eqb_eq in Hc. subst c. rewrite split_sep. now constructor.
  - destruct (split_other c s Hc) as (seg & rest & E1 & E2).
    rewrite E2. rewrite E1 in IH. inversion IH; subst.
    constructor; [simpl; now rewrite Hc|assumption].
Qed.

(** A string without separator is its own single segment. *)
Lemma split_single (s : string) : occurs sep s = false -> JS.split sep s = [s].
Proof.
  induction s as [|c s IH]; [reflexivity|].
  simpl. intros H. apply orb_false_iff in H as [Hc Hs].
  rewrite Hc, (IH Hs). reflexivity.
Qed.

(** A leading piece without separator, then the separator: the piece is the
    first segment. *)
Lemma split_app_single (a b : string) :
  occurs sep a = false ->
  JS.split sep (a ++ String sep b) = a :: JS.split sep b.
Proof.
  induction a as [|c a IH]; intros H.
  - apply split_sep.
  - simpl in H. apply orb_false_iff in H as [Hc Ha].
    change (String c a ++ String sep b) with (String c (a ++ String sep b)).
    simpl. rewrite Hc, (IH Ha). reflexivity.
Qed.

(** Around a separator there are at least two segments. *)
Lemma split_app_length (a b : string) :
  (2 <= List.length (JS.split sep (a ++ String sep b)))%nat.
Proof.
  induction a as [|c a IH].
  - change (EmptyString ++ String sep b) with (String sep b).
    rewrite split_sep. pose proof (split_length_pos b). simpl. lia.
  - change (String c a ++ String sep b) with (String c (a ++ String sep b)).
    destruct (Ascii.eqb c sep) eqn:Hc.
    + apply Ascii.eqb_eq in Hc. subst c. rewrite split_sep. simpl. lia.
    + destruct (split_other c (a ++ String sep b) Hc) as (seg & rest & E1 & E2).
      rewrite E2. rewrite E1 in IH. exact IH.
Qed.

End Split.

Section Suffix.

Lemma length_append (a b : string) :
  String.length (a ++ b) = (String.length a + String.length b)%nat.
Proof. induction a as [|c a IH]; simpl; [reflexivity|now rewrite IH]. Qed.

Lemma substring_all (s : string) : String.substring 0 (String.length s) s = s.
Proof. induction s as [|c s IH]; simpl; [reflexivity|now rewrite IH]. Qed.

Lemma substring_append_left (a b : string) :
  String.substring 0 (String.length a) (a ++ b) = a.
Proof.
  induction a as [|c a IH]; simpl; [now destruct b|now rewrite IH].
Qed.

Lemma substring_append_right (a b : string) :
  String.substring (String.length a) (String.length b) (a ++ b) = b.
Proof. induction a as [|c a IH]; simpl; [apply substring_all|exact IH]. Qed.

(** Stripping a suffix that was appended gives the base back. *)
Lemma without_suffix_append (suffix base : string) :
  without_suffix suffix (base ++ suffix) = base.
Proof.
  unfold without_suffix, JS.endsWith. rewrite length_append.
  replace (String.length base + String.length suffix - String.length suffix)%nat
    with (String.length base) by lia.
  rewrite substring_append_right, String.eqb_refl, substring_append_left.
  destruct (Nat.leb_spec (String.length suffix)
                         (String.length base + String.length suffix)); [reflexivity|lia].
Qed.

Lemma prefix_other (c : ascii) (pattern s : string) :
  Ascii.eqb c "." = false -> String.prefix (String "." pattern) (String c s) = false.
Proof.
  intros Hc.
  change (String.prefix (String "." pattern) (String c s))
    with (if ascii_dec "." c then String.prefix pattern s else false).
  destruct (ascii_dec "." c) as [<-|_]; [discriminate|reflexivity].
Qed.

(** A name without any dot is sent as it is. *)
Lemma replace_unchanged (name : string) :
  occurs "." name = false -> JS.replace ".pdf" "" name = name.
Proof.
  induction name as [|c name IH]; [reflexivity|].
  simpl occurs. intros H. apply orb_false_iff in H as [Hc Hname].
  unfold JS.replace; fold JS.replace.
  rewrite (prefix_other c "pdf" name Hc), (IH Hname). reflexivity.
Qed.

(** For a name whose only dot is the one of a final ".pdf", the label sent
    is the name without that suffix. *)
Lemma replace_strips_suffix (base : string) :
  occurs "." base = false ->
  JS.replace ".pdf" "" (base ++ ".pdf") = base
  /\ JS.replace ".pdf" "" (base ++ ".pdf") = without_suffix ".pdf" (base ++ ".pdf").
Proof.
  intros Hbase. rewrite without_suffix_append.
  assert (H : JS.replace ".pdf" "" (base ++ ".pdf") = base); [|now split].
  induction base as [|c base IH]; [reflexivity|].
  simpl in Hbase. apply orb_false_iff in Hbase as [Hc Hbase].
  change (String c base ++ ".pdf") with (String c (base ++ ".pdf")).
  unfold JS.replace; fold JS.replace.
  rewrite (prefix_other c "pdf" (base ++ ".pdf") Hc), (IH Hbase). reflexivity.
Qed.

End Suffix.

(* ================================================================== *)
(** ** Session identity from the path *)
(* ================================================================== *)

Section Identity.

Import useCustomChat.

Lemma getChatParams_segments (pathname : string) (seg0 seg1 seg2 seg3 : string)
    (rest : list string) :
  JS.split "/" pathname = seg0 :: seg1 :: seg2 :: seg3 :: rest ->
  getChatParams pathname =
    if String.eqb seg1 "chat"
    then Some {| user_hash := seg2; project_id := seg3 |}
    else None.
Proof.
  intros E. unfold getChatParams. rewrite E. simpl.
  now destruct (String.eqb seg1 "chat").
Qed.

Lemma getChatParams_short (pathname : string) :
  (List.length (JS.split "/" pathname) < 4)%nat -> getChatParams pathname = None.
Proof.
  intros H. unfold getChatParams.
  destruct (Nat.leb_spec 4 (List.length (JS.split "/" pathname))); [lia|reflexivity].
Qed.

(** The general shape of a generated path: "/chat/", a first part, a slash,
    a second part. *)
Lemma chat_path_resolves (user_hash project_id : string) :
  exists chatParams,
    getChatParams ("/chat/" ++ user_hash ++ "/" ++ project_id) = Some chatParams.
Proof.
  pose proof (split_app_length "/" user_hash project_id) as Hlen.
  change (user_hash ++ String "/" project_id)
    with (user_hash ++ "/" ++ project_id) in Hlen.
  unfold getChatParams.
  change ("/chat/" ++ user_hash ++ "/" ++ project_id)
    with (String "/" (String "c" (String "h" (String "a" (String "t"
           (String "/" (user_hash ++ "/" ++ project_id))))))).
  remember (user_hash ++ "/" ++ project_id) as tail eqn:Etail.
  cbn [JS.split Ascii.eqb Bool.eqb].
  destruct (JS.split "/" tail) as [|seg2 [|seg3 rest]]; simpl in Hlen; try lia.
  simpl. eauto.
Qed.

(** When neither part contains a slash, the identity read back is the pair
    the path was built from. *)
Lemma chat_path_round_trip (u p : string) :
  occurs "/" u = false -> occurs "/" p = false ->
  getChatParams ("/chat/" ++ u ++ "/" ++ p)
  = Some {| user_hash := u; project_id := p |}.
Proof.
  intros Hu Hp.
  pose proof (split_app_single "/" u p Hu) as E.
  rewrite (split_single "/" p Hp) in E.
  change (u ++ String "/" p) with (u ++ "/" ++ p) in E.
  unfold getChatParams.
  change ("/chat/" ++ u ++ "/" ++ p)
    with (String "/" (String "c" (String "h" (String "a" (String "t"
           (String "/" (u ++ "/" ++ p))))))).
  remember (u ++ "/" ++ p) as tail eqn:Etail.
  cbn [JS.split Ascii.eqb Bool.eqb]. rewrite E. reflexivity.
Qed.

(** The paths that resolve, described without [split]: some slash-free
    first segment (empty for an absolute path), "/chat/", a slash-free owner
    hash, "/", a slash-free session id, and then nothing or a further "/"
    and anything. *)
Lemma getChatParams_shape (pathname ownerHash sessionId : string) :
  getChatParams pathname
  = Some {| user_hash := ownerHash; project_id := sessionId |}
  <-> exists first,
        occurs "/" first = false
        /\ occurs "/" ownerHash = false
        /\ occurs "/" sessionId = false
        /\ (pathname = first ++ "/chat/" ++ ownerHash ++ "/" ++ sessionId
            \/ exists more,
                 pathname = first ++ "/chat/" ++ ownerHash ++ "/" ++ sessionId
                                  ++ "/" ++ more).
Proof.
  split.
  - intros Hres.
    pose proof (join_split "/" pathname) as Hjoin.
    pose proof (split_segments "/" pathname) as Hseg.
    destruct (JS.split "/" pathname) as [|seg0 [|seg1 [|seg2 [|seg3 rest]]]] eqn:E;
      try (rewrite getChatParams_short in Hres by (rewrite E; simpl; lia);
           discriminate).
    rewrite (getChatParams_segments _ _ _ _ _ _ E) in Hres.
    destruct (String.eqb_spec seg1 "chat") as [->|]; [|discriminate].
    inversion Hres; subst seg2 seg3.
    inversion Hseg as [|? ? H0 Hseg1]; subst.
    inversion Hseg1 as [|? ? _ Hseg2]; subst.
    inversion Hseg2 as [|? ? H2 Hseg3]; subst.
    inversion Hseg3 as [|? ? H3 _]; subst.
    exists seg0. repeat (split; [assumption|]).
    destruct rest as [|seg4 rest].
    + left. reflexivity.
    + right. exists (JS.join "/" (seg4 :: rest)). reflexivity.
  - intros (first & H0 & H2 & H3 & [->| [more ->]]).
    + rewrite (getChatParams_segments _ first "chat" ownerHash sessionId []);
        [reflexivity|].
      change (first ++ "/chat/" ++ ownerHash ++ "/" ++ sessionId)
        with (first ++ String "/" ("chat" ++ String "/"
                (ownerHash ++ String "/" sessionId))).
      rewrite (split_app_single "/" first _ H0).
      rewrite (split_app_single "/" "chat" _ eq_refl).
      rewrite (split_app_single "/" ownerHash _ H2).
      now rewrite (split_single "/" sessionId H3).
    + rewrite (getChatParams_segments _ first "chat" ownerHash sessionId
                 (JS.split "/" more)); [reflexivity|].
      change (first ++ "/chat/" ++ ownerHash ++ "/" ++ sessionId ++ "/" ++ more)
        with (first ++ String "/" ("chat" ++ String "/"
                (ownerHash ++ String "/" (sessionId ++ String "/" more)))).
      rewrite (split_app_single "/" first _ H0).
      rewrite (split_app_single "/" "chat" _ eq_refl).
      rewrite (split_app_single "/" ownerHash _ H2).
      now rewrite (split_app_single "/" sessionId _ H3).
Qed.

(** C4.  The resolver is a function of the path alone.  With the path split
    on '/', it yields [{ownerHash: segment[2], sessionId: segment[3]}]
    exactly when there are at least 4 segments and segment[1] is "chat", and
    is unresolved exactly otherwise.  "/chat/abc/123" resolves to
    [{abc, 123}]; "/", "/chat" and "/chat/abc" are unresolved. *)
Theorem getChatParams_resolves_exactly :
  (forall pathname : string,
     let segment := JS.split "/" pathname in
     (forall ownerHash sessionId : string,
        getChatParams pathname
        = Some {| user_hash := ownerHash; project_id := sessionId |}
        <-> ((4 <= List.length segment)%nat
             /\ nth_error segment 1 = Some "chat"
             /\ nth_error segment 2 = Some ownerHash
             /\ nth_error segment 3 = Some sessionId))
     /\ (getChatParams pathname = None
         <-> ~ ((4 <= List.length segment)%nat
                /\ nth_error segment 1 = Some "chat")))
  /\ getChatParams "/chat/abc/123"
     = Some {| user_hash := "abc"; project_id := "123" |}
  /\ getChatParams "/" = None
  /\ getChatParams "/chat" = None
  /\ getChatParams "/chat/abc" = None.
Proof.
  split; [|repeat split; reflexivity].
  intros pathname segment.
  destruct segment as [|seg0 [|seg1 [|seg2 [|seg3 rest]]]] eqn:E;
    subst segment;
    try (rewrite getChatParams_short by (rewrite E; simpl; lia);
         split; [intros ? ?|]; split; try discriminate; try reflexivity;
         simpl; intros; try lia; intuition (try discriminate; try lia)).
  rewrite (getChatParams_segments _ _ _ _ _ _ E).
  destruct (String.eqb_spec seg1 "chat") as [->|Hne]; simpl.
  - split; [intros ownerHash sessionId|].
    + split.
      * intros H. inversion H; subst. repeat split; lia.
      * intros (_ & _ & H2 & H3). congruence.
    + split; [discriminate|]. intros H. exfalso. apply H. split; [lia|reflexivity].
  - split; [intros ownerHash sessionId|].
    + split; [discriminate|]. intros (_ & H1 & _). congruence.
    + split; [|reflexivity]. intros _ (_ & H1). congruence.
Qed.

End Identity.

(* ================================================================== *)
(** ** Running asynchronous functions *)
(* ================================================================== *)

Section Run.

Context {S : Type}.
Variable env : Env.

Lemma run_bind {A B} (p : Async S A) (f : A -> Async S B) (w : World S) :
  run env (bind p f) w =
    match run env p w with
    | (w', inl a) => run env (f a) w'
    | (w', inr e) => (w', inr e)
    end.
Proof.
  revert w. induction p; intros w; simpl; auto.
Qed.

Lemma run_try_catch {A} (body : Async S A) (handler : JS.Thrown -> Async S A)
    (w : World S) :
  run env (try_catch body handler) w =
    match run env body w with
    | (w', inl a) => (w', inl a)
    | (w', inr e) => run env (handler e) w'
    end.
Proof. revert w. induction body; intros w; simpl; auto. Qed.

Lemma run_finally {A} (body : Async S A) (fin : Async S unit) (w : World S) :
  run env (finally body fin) w =
    match run env body w with
    | (w', r) =>
        match run env fin w' with
        | (w'', inl _) => (w'', r)
        | (w'', inr e) => (w'', inr e)
        end
    end.
Proof.
  revert w. induction body; intros w; simpl; auto;
    rewrite run_bind; destruct (run env fin w) as [w' [[]|e']]; reflexivity.
Qed.

Lemma run_setState (f : S -> S) (w : World S) :
  run env (setState f) w = (with_state f w, inl tt).
Proof. reflexivity. Qed.

(** A function that settles without awaiting anything has run to completion
    when [advance] returns. *)
Lemma advance_settled {A} (p : Async S A) (w w' : World S) (r : A + JS.Thrown) :
  advance env p w = (w', Settled r) -> run env p w = (w', r).
Proof.
  revert w. induction p; intros w; simpl; intros E; auto;
    try discriminate; inversion E; subst; reflexivity.
Qed.

End Run.

(* ================================================================== *)
(** ** Upload *)
(* ================================================================== *)

#[local] Arguments ok : simpl never.

(** Case analysis on how the request in the goal settles: rejected, answered
    with a failure status, answered with an unreadable body, answered with
    data. *)
Ltac settle_fetch :=
  match goal with
  | |- context [net ?e ?n ?req] =>
      let response := fresh "response" in
      let err := fresh "err" in
      destruct (net e n req) as [response|err]; cbn
  end;
  try match goal with
      | |- context [@ok ?D ?r] => destruct (@ok D r) eqn:?Hok; cbn
      end;
  try match goal with
      | |- context [@body ?D ?r] =>
          let data := fresh "data" in
          let err := fresh "err" in
          destruct (@body D r) as [data|err] eqn:?Hbody; cbn
      end.

Section Upload.

Variable env : Env.

(** What the upload request of [DemoPage] does: one POST to the create
    endpoint; then either the generated path is stored and returned and the
    phase is [share], or the state is left as it was and the failure is
    rethrown. *)
Lemma DemoPage_handleFileUpload_run (file : File.t) (w : World Page) :
  exists w' r,
    run env (DemoPage.handleFileUpload file) w = (w', r)
    /\ requests w' = (requests w ++ [POST_api_create (create_form file)])%list
    /\ alerts w' = alerts w
    /\ match r with
       | inl chatUrl =>
           (exists user_hash project_id,
              chatUrl = "/chat/" ++ user_hash ++ "/" ++ project_id)
           /\ state w' = {| appState := share; chatId := Some chatUrl;
                            dragOver := dragOver (state w);
                            uploading := uploading (state w);
                            uploadingFileName := uploadingFileName (state w) |}
       | inr _ => state w' = state w
       end.
Proof.
  unfold DemoPage.handleFileUpload, create_form. cbn.
  settle_fetch; do 2 eexists; (split; [reflexivity|]); cbn; repeat split; eauto.
  all: destruct w as [[]]; reflexivity.
Qed.

(** What the landing page does with a file.  Above the limit: a notice and
    nothing else.  Otherwise: exactly one create request; on failure a notice
    and the phase as before, on success the phase [share] with the generated
    path.  The promise never rejects. *)
Lemma LandingPage_handleFileUpload_run (file : File.t) (w : World Page) :
  exists w',
    run env (LandingPage.handleFileUpload DemoPage.handleFileUpload file) w
    = (w', inl tt)
    /\ if (size_limit <? File.size file)%N
       then requests w' = requests w
            /\ alerts w' = (alerts w ++ ["File size must be less than 15MB"])%list
            /\ state w' = state w
       else requests w' = (requests w ++ [POST_api_create (create_form file)])%list
            /\ uploading (state w') = false
            /\ ((appState (state w') = appState (state w)
                 /\ chatId (state w') = chatId (state w)
                 /\ alerts w' = (alerts w ++ ["Upload failed. Please try again."])%list)
                \/ (appState (state w') = share
                    /\ alerts w' = alerts w
                    /\ exists user_hash project_id,
                         chatId (state w')
                         = Some ("/chat/" ++ user_hash ++ "/" ++ project_id))).
Proof.
  unfold LandingPage.handleFileUpload, size_limit.
  destruct (15 * 1024 * 1024 <? File.size file)%N.
  - eexists. split; [reflexivity|]. cbn. auto.
  - unfold DemoPage.handleFileUpload, create_form. cbn.
    settle_fetch; eexists; (split; [reflexivity|]); cbn;
      (split; [reflexivity|]); (split; [reflexivity|]); eauto 10.
Qed.

(** The drop handler hands over the first PDF-typed file, if any. *)
Lemma LandingPage_handleDrop_run (files : list File.t) (w : World Page) :
  run env (LandingPage.handleDrop DemoPage.handleFileUpload files) w =
    match List.find is_pdf files with
    | Some pdfFile =>
        run env (LandingPage.handleFileUpload DemoPage.handleFileUpload pdfFile)
            (with_state (fun s => {| appState := appState s; chatId := chatId s;
                                     dragOver := false; uploading := uploading s;
                                     uploadingFileName := uploadingFileName s |}) w)
    | None =>
        (with_state (fun s => {| appState := appState s; chatId := chatId s;
                                 dragOver := false; uploading := uploading s;
                                 uploadingFileName := uploadingFileName s |}) w,
         inl tt)
    end.
Proof.
  unfold LandingPage.handleDrop. cbn. fold is_pdf.
  change (fun file : File.t => String.eqb (File.type file) "application/pdf")
    with is_pdf.
  destruct (List.find is_pdf files); reflexivity.
Qed.

(** The picker handler hands over the first selected file, whatever its
    type. *)
Lemma LandingPage_handleFileInputChange_run (files : list File.t) (w : World Page) :
  run env (LandingPage.handleFileInputChange DemoPage.handleFileUpload files) w =
    match files with
    | file :: _ =>
        run env (LandingPage.handleFileUpload DemoPage.handleFileUpload file) w
    | [] => (w, inl tt)
    end.
Proof. destruct files; reflexivity. Qed.

(** A file above 15 MiB is turned away with a notice and no request, by
    whichever handler it arrives. *)
Lemma oversize_rejected (file : File.t) (w : World Page) :
  (size_limit < File.size file)%N ->
  let w' := exec env (LandingPage.handleFileUpload DemoPage.handleFileUpload file) w in
  requests w' = requests w
  /\ alerts w' = (alerts w ++ ["File size must be less than 15MB"])%list
  /\ state w' = state w.
Proof.
  intros Hsize w'. subst w'. unfold exec.
  destruct (LandingPage_handleFileUpload_run file w) as (w' & E & H).
  rewrite E. simpl.
  apply N.ltb_lt in Hsize. rewrite Hsize in H. exact H.
Qed.

(** On the drop path every create request carries a PDF-typed file within
    the limit; when no dropped file is PDF-typed nothing is requested and
    nothing is shown. *)
Lemma drop_requests (files : list File.t) (w : World Page) :
  let w' := exec env (LandingPage.handleDrop DemoPage.handleFileUpload files) w in
  requests w' = requests w
  \/ exists file,
       In file files /\ is_pdf file = true /\ (File.size file <= size_limit)%N
       /\ requests w' = (requests w ++ [POST_api_create (create_form file)])%list.
Proof.
  intros w'. subst w'. unfold exec. rewrite LandingPage_handleDrop_run.
  destruct (List.find is_pdf files) as [pdfFile|] eqn:Efind; [|now left].
  apply find_some in Efind as [Hin Hpdf].
  match goal with
  | |- context [run env _ ?w0] =>
      destruct (LandingPage_handleFileUpload_run pdfFile w0) as (w' & E & H)
  end.
  rewrite E. simpl.
  destruct (N.ltb_spec size_limit (File.size pdfFile)) as [Hbig|Hfit].
  - left. now destruct H as (-> & _).
  - right. exists pdfFile. now destruct H as (-> & _).
Qed.

Lemma drop_without_pdf (files : list File.t) (w : World Page) :
  Forall (fun file => File.type file <> "application/pdf") files ->
  let w' := exec env (LandingPage.handleDrop DemoPage.handleFileUpload files) w in
  requests w' = requests w /\ alerts w' = alerts w.
Proof.
  intros Hall w'. subst w'. unfold exec. rewrite LandingPage_handleDrop_run.
  destruct (List.find is_pdf files) as [pdfFile|] eqn:Efind; [|now split].
  apply find_some in Efind as [Hin Hpdf].
  rewrite Forall_forall in Hall. specialize (Hall _ Hin).
  unfold is_pdf in Hpdf. apply String.eqb_eq in Hpdf. contradiction.
Qed.

End Upload.

Section UploadClaims.

Variable env : Env.

(** C1 (the code at the failing input).  A text file of 10 bytes chosen in
    the file picker is not PDF-typed, and yet the page posts it to the
    session-creation endpoint, whatever the backend replies; the same file
    dropped on the drop target is ignored. *)
Theorem picker_posts_non_pdf_file :
  let notes := {| File.name := "notes.txt"; File.size := 10;
                  File.type := "text/plain" |} in
  File.type notes <> "application/pdf"
  /\ requests (page env "/" [FileInputChange [notes]])
     = [POST_api_create (create_form notes)]
  /\ existsb is_create (requests (page env "/" [FileInputChange [notes]])) = true
  /\ requests (page env "/" [Drop [notes]]) = [].
Proof.
  cbv zeta. split; [discriminate|].
  assert (H : requests (page env "/"
                [FileInputChange [{| File.name := "notes.txt"; File.size := 10;
                                     File.type := "text/plain" |}]])
              = [POST_api_create
                   (create_form {| File.name := "notes.txt"; File.size := 10;
                                   File.type := "text/plain" |})]).
  { unfold page, mountPage, dispatch, exec. cbn.
    unfold DemoPage.handleFileUpload. cbn.
    settle_fetch; reflexivity. }
  split; [exact H|]. split; [now rewrite H|reflexivity].
Qed.

(** C8 (the code at the failing input).  For the PDF "my.pdf.backup.pdf" the
    project label sent is "my.backup.pdf" (the first ".pdf" is removed), not
    the name without its ".pdf" suffix; for "scan.pdf.bak", which does not
    end in ".pdf", the label is "scan.bak", not the unchanged name. *)
Theorem project_name_drops_first_occurrence :
  let file := {| File.name := "my.pdf.backup.pdf"; File.size := 10;
                 File.type := "application/pdf" |} in
  let other := {| File.name := "scan.pdf.bak"; File.size := 10;
                  File.type := "application/octet-stream" |} in
  flat_map project_names (requests (page env "/" [Drop [file]]))
  = [FormString "my.backup.pdf"]
  /\ without_suffix ".pdf" (File.name file) = "my.pdf.backup"
  /\ flat_map project_names (requests (page env "/" [FileInputChange [other]]))
     = [FormString "scan.bak"]
  /\ without_suffix ".pdf" (File.name other) = "scan.pdf.bak".
Proof.
  cbv zeta. repeat split; try reflexivity.
  all: unfold page, mountPage, dispatch, exec; cbn;
    unfold DemoPage.handleFileUpload; cbn; settle_fetch; reflexivity.
Qed.

(** C6.  Whatever strings [user_hash] and [project_id] the backend supplies
    in a successful reply, the upload returns and stores the path
    "/chat/" + user_hash + "/" + project_id, and the resolver applied to that
    path yields an identity. *)
Theorem generated_path_resolves (file : File.t) (w : World Page)
    (response : Response CreateResult.t) (result : CreateResult.t) :
  net env (List.length (requests w)) (POST_api_create (create_form file))
  = inl response ->
  ok response = true ->
  body response = inl result ->
  let chatUrl := "/chat/" ++ CreateResult.user_hash result ++ "/"
                          ++ CreateResult.project_id result in
  exists w' chatParams,
    run env (DemoPage.handleFileUpload file) w = (w', inl chatUrl)
    /\ chatId (state w') = Some chatUrl
    /\ useCustomChat.getChatParams chatUrl = Some chatParams.
Proof.
  intros Hnet Hok Hbody chatUrl.
  destruct (chat_path_resolves (CreateResult.user_hash result)
                               (CreateResult.project_id result))
    as [chatParams Hres].
  unfold DemoPage.handleFileUpload. unfold create_form in Hnet. cbn.
  rewrite Hnet. cbn. rewrite Hok. cbn. rewrite Hbody. cbn.
  eexists. exists chatParams. split; [reflexivity|]. split; [reflexivity|].
  exact Hres.
Qed.

(** Each handler keeps the phase invariant. *)
Lemma dispatch_phase_invariant (w : World Page) (ev : PageEvent) :
  phase_invariant (state w) -> phase_invariant (state (dispatch env w ev)).
Proof.
  intros Hinv. unfold dispatch, handler, DemoPage.renderContent.
  destruct (appState (state w)) eqn:Ephase; destruct ev; try exact Hinv.
  - (* drop *)
    unfold exec. rewrite LandingPage_handleDrop_run.
    destruct (List.find is_pdf files) as [pdfFile|].
    + match goal with
      | |- context [run env _ ?w0] =>
          destruct (LandingPage_handleFileUpload_run env pdfFile w0) as (w' & E & H)
      end.
      rewrite E. simpl.
      destruct (size_limit <? File.size pdfFile)%N.
      * destruct H as (_ & _ & ->). unfold phase_invariant in *. cbn.
        exact Hinv.
      * destruct H as (_ & _ & [(Hp & Hc & _)|(Hp & _ & u & p & Hc)]);
          unfold phase_invariant in *; rewrite Hp, Hc; cbn.
        -- exact Hinv.
        -- split; [auto|discriminate].
    + unfold phase_invariant in *. cbn. exact Hinv.
  - (* file picker *)
    unfold exec. rewrite LandingPage_handleFileInputChange_run.
    destruct files as [|file files]; [exact Hinv|].
    destruct (LandingPage_handleFileUpload_run env file w) as (w' & E & H).
    rewrite E. simpl.
    destruct (size_limit <? File.size file)%N.
    + destruct H as (_ & _ & ->). exact Hinv.
    + destruct H as (_ & _ & [(Hp & Hc & _)|(Hp & _ & u & p & Hc)]);
        unfold phase_invariant in *; rewrite Hp, Hc.
      * exact Hinv.
      * split; [auto|discriminate].
  - (* create another *)
    unfold phase_invariant. cbn. split; [congruence|intros [H|H]; discriminate].
Qed.

Lemma mountPage_phase_invariant (currentPath : string) :
  phase_invariant (state (mountPage env currentPath)).
Proof.
  unfold mountPage, exec, DemoPage.useEffect, phase_invariant.
  destruct (JS.startsWith "/chat/" currentPath); cbn.
  - split; [auto|discriminate].
  - split; [congruence|intros [H|H]; discriminate].
Qed.

Lemma fold_dispatch_phase_invariant (events : list PageEvent) (w : World Page) :
  phase_invariant (state w) ->
  phase_invariant (state (fold_left (dispatch env) events w)).
Proof.
  revert w. induction events as [|ev events IH]; intros w Hinv; [exact Hinv|].
  simpl. apply IH. now apply dispatch_phase_invariant.
Qed.

(** C10.  In every state the page reaches -- mounted at any location, after
    any sequence of drops, file selections, uploads that succeed or fail, and
    resets -- the stored path is non-null if and only if the phase is share
    or chat; in the landing phase the path is null. *)
Theorem page_phase_invariant (currentPath : string) (events : list PageEvent) :
  let s := state (page env currentPath events) in
  (chatId s <> None <-> (appState s = share \/ appState s = chat))
  /\ (appState s = landing -> chatId s = None).
Proof.
  intros s.
  assert (Hinv : phase_invariant s).
  { apply fold_dispatch_phase_invariant, mountPage_phase_invariant. }
  split; [exact Hinv|].
  intros Hl. destruct (chatId s) as [path|] eqn:Ec; [|reflexivity].
  unfold phase_invariant in Hinv. rewrite Ec in Hinv.
  destruct Hinv as [Hinv _].
  destruct Hinv as [H|H]; [discriminate| |]; congruence.
Qed.

End UploadClaims.

(* ================================================================== *)
(** ** Chat turns *)
(* ================================================================== *)

(** Case analysis on the conditions the function in the goal branches on. *)
Ltac branch :=
  repeat match goal with
         | |- context [if ?b then _ else _] => destruct b eqn:?
         end.

Section Chat.

Import useCustomChat.

Variable env : Env.

(** The project info effect touches nothing but [documentName]. *)
Lemma loadProjectInfo_frame (pathname : string) (w : World State) :
  let w' := exec env (loadProjectInfo pathname) w in
  messages (state w') = messages (state w)
  /\ isLoading (state w') = isLoading (state w)
  /\ error (state w') = error (state w)
  /\ alerts w' = alerts w.
Proof.
  unfold exec, loadProjectInfo.
  destruct (getChatParams pathname) as [chatParams|]; cbn; [|auto].
  settle_fetch; branch; cbn; auto.
Qed.

(** The flag after a turn: released when the path resolves, untouched by the
    early return. *)
Lemma sendMessage_isLoading (pathname : string) (documentName : option string)
    (messageText : string) (w : World State) :
  isLoading (state (exec env (sendMessage pathname documentName messageText) w))
  = match getChatParams pathname with
    | Some _ => false
    | None => isLoading (state w)
    end.
Proof.
  unfold exec, sendMessage.
  destruct (getChatParams pathname) as [chatParams|]; cbn; [|reflexivity].
  settle_fetch; branch; cbn; reflexivity.
Qed.


(** A turn only ever appends to the history. *)
Lemma sendMessage_append_only (pathname : string) (documentName : option string)
    (messageText : string) (w : World State) :
  exists suffix,
    messages (state (exec env (sendMessage pathname documentName messageText) w))
    = (messages (state w) ++ suffix)%list.
Proof.
  unfold exec, sendMessage.
  destruct (getChatParams pathname) as [chatParams|]; cbn;
    [|exists []; now rewrite app_nil_r].
  settle_fetch; branch; cbn; rewrite <- ?app_assoc; eexists; reflexivity.
Qed.

(** The guard on the document name tests the variable of the closure: a
    callback that closed over a name never sets one. *)
Lemma sendMessage_named_closure (pathname : string) (documentName : option string)
    (messageText : string) (w : World State) :
  JS.truthy documentName = true ->
  useCustomChat.documentName
    (state (exec env (sendMessage pathname documentName messageText) w))
  = useCustomChat.documentName (state w).
Proof.
  intros Hdn. unfold exec, sendMessage.
  destruct (getChatParams pathname) as [chatParams|]; cbn; [|reflexivity].
  rewrite Hdn. cbn.
  settle_fetch; branch; cbn; reflexivity.
Qed.

(** C9.  When the path does not resolve, [sendMessage] settles at once,
    without awaiting anything: no request is issued, the message history is
    untouched, and the failure "Invalid chat URL format" is recorded in the
    error state (the other cells keep their values). *)
Theorem sendMessage_unresolved (pathname : string) (documentName : option string)
    (messageText : string) (w : World State) :
  getChatParams pathname = None ->
  exists w',
    advance env (sendMessage pathname documentName messageText) w
    = (w', Settled (inl tt))
    /\ run env (sendMessage pathname documentName messageText) w = (w', inl tt)
    /\ requests w' = requests w
    /\ messages (state w') = messages (state w)
    /\ error (state w') = Some "Invalid chat URL format"
    /\ isLoading (state w') = isLoading (state w)
    /\ useCustomChat.documentName (state w') = useCustomChat.documentName (state w).
Proof.
  intros Hnone. unfold sendMessage. rewrite Hnone.
  eexists. split; [reflexivity|]. cbn. repeat split.
Qed.

(** C2, as amended.  With a resolvable path, when the backend replies with a
    non-success status, or with a success status and a body whose [error] is
    a non-empty string, the history afterwards is the old history followed by
    exactly the human message for the question -- no ai message -- and the
    error state holds a non-empty text. *)
Theorem sendMessage_backend_failure (pathname : string)
    (documentName : option string) (messageText : string) (w : World State)
    (chatParams : ChatParams) :
  getChatParams pathname = Some chatParams ->
  chat_failure (net env (List.length (requests w))
                    (chat_request chatParams messageText)) ->
  let s' := state (exec env (sendMessage pathname documentName messageText) w) in
  messages s'
  = (messages (state w) ++ [human_message (clock env (ticks w)) messageText])%list
  /\ (exists text, error s' = Some text /\ text <> "")
  /\ error s' <> None
  /\ isLoading s' = false.
Proof.
  intros Hres (response & Hnet & Hfail) s'. subst s'.
  unfold exec, sendMessage. rewrite Hres. unfold chat_request in Hnet. cbn.
  rewrite Hnet. cbn.
  destruct Hfail as [Hok|(Hok & data & Hbody & Herr)]; rewrite Hok; cbn.
  - repeat split; [eexists; split; [reflexivity|discriminate]|discriminate].
  - rewrite Hbody. cbn. rewrite Herr. cbn.
    destruct (ChatResponse.error data) as [e|]; [|discriminate]. cbn in *.
    repeat split; [|discriminate].
    exists e. split; [reflexivity|]. intros ->. discriminate.
Qed.


(** A turn that succeeds: the synchronous prefix stops at the chat request
    with the human message already in the history; the ai message follows
    when the reply has arrived. *)
Lemma sendMessage_success (pathname : string) (documentName : option string)
    (messageText : string) (w : World State) (chatParams : ChatParams)
    (data : ChatResponse.t) :
  getChatParams pathname = Some chatParams ->
  chat_success (net env (List.length (requests w))
                    (chat_request chatParams messageText)) data ->
  let human := human_message (clock env (ticks w)) messageText in
  let ai := ai_message (clock env (Datatypes.S (ticks w))) (ChatResponse.answer data) in
  (exists pending k,
     advance env (sendMessage pathname documentName messageText) w
     = (pending, Pending (chat_request chatParams messageText) k)
     /\ messages (state pending) = (messages (state w) ++ [human])%list
     /\ isLoading (state pending) = true)
  /\ exists w',
       run env (sendMessage pathname documentName messageText) w = (w', inl tt)
       /\ messages (state w') = (messages (state w) ++ [human; ai])%list
       /\ isLoading (state w') = false
       /\ error (state w') = None
       /\ requests w'
          = (requests w ++ [chat_request chatParams messageText])%list
       /\ ticks w' = Datatypes.S (Datatypes.S (ticks w)).
Proof.
  intros Hres (response & Hnet & Hok & Hbody & Herr) human ai.
  subst human ai.
  unfold sendMessage. rewrite Hres. unfold chat_request in *. split.
  - cbn. do 2 eexists. split; [reflexivity|]. split; reflexivity.
  - cbn. rewrite Hnet. cbn. rewrite Hok. cbn. rewrite Hbody. cbn.
    rewrite Herr. cbn.
    branch; cbn; eexists; (split; [reflexivity|]); cbn;
      rewrite <- app_assoc; repeat split.
Qed.

(** C5.  From an empty history, two turns in sequence that both succeed leave
    [human1; ai1; human2; ai2]: each human message is in the history while
    its request is pending, each ai message only after the reply, and every
    snapshot extends the one before. *)
Theorem two_successful_turns (pathname : string) (chatParams : ChatParams)
    (documentName1 documentName2 : option string) (text1 text2 : string)
    (data1 data2 : ChatResponse.t) (w : World State) :
  messages (state w) = [] ->
  getChatParams pathname = Some chatParams ->
  chat_success (net env (List.length (requests w))
                    (chat_request chatParams text1)) data1 ->
  chat_success (net env (Datatypes.S (List.length (requests w)))
                    (chat_request chatParams text2)) data2 ->
  let send1 := sendMessage pathname documentName1 text1 in
  let send2 := sendMessage pathname documentName2 text2 in
  let human1 := human_message (clock env (ticks w)) text1 in
  let ai1 := ai_message (clock env (1 + ticks w)) (ChatResponse.answer data1) in
  let human2 := human_message (clock env (2 + ticks w)) text2 in
  let ai2 := ai_message (clock env (3 + ticks w)) (ChatResponse.answer data2) in
  let w1 := exec env send1 w in
  let w2 := exec env send2 w1 in
  (exists pending k,
     advance env send1 w = (pending, Pending (chat_request chatParams text1) k)
     /\ messages (state pending) = [human1])
  /\ messages (state w1) = [human1; ai1]
  /\ (exists pending k,
        advance env send2 w1 = (pending, Pending (chat_request chatParams text2) k)
        /\ messages (state pending) = [human1; ai1; human2])
  /\ messages (state w2) = [human1; ai1; human2; ai2].
Proof.
  intros Hempty Hres Hs1 Hs2 send1 send2 human1 ai1 human2 ai2 w1 w2.
  destruct (sendMessage_success pathname documentName1 text1 w chatParams data1
              Hres Hs1) as [(p1 & k1 & Ea1 & Hm1 & _) (w1' & Er1 & Hw1 & _ & _ & Hq1 & Ht1)].
  assert (Ew1 : w1 = w1') by (subst w1 send1; unfold exec; now rewrite Er1).
  assert (Hs2' : chat_success (net env (List.length (requests w1'))
                                   (chat_request chatParams text2)) data2).
  { rewrite Hq1, length_app. simpl. now rewrite Nat.add_1_r. }
  destruct (sendMessage_success pathname documentName2 text2 w1' chatParams data2
              Hres Hs2') as [(p2 & k2 & Ea2 & Hm2 & _) (w2' & Er2 & Hw2 & _)].
  assert (Ew2 : w2 = w2') by (subst w2 send2; unfold exec; now rewrite Ew1, Er2).
  rewrite Hempty in *. simpl in Hm1, Hw1.
  rewrite Hw1, Ht1 in *. simpl in Hm2, Hw2.
  subst send1 send2. rewrite Ew1, Ew2.
  split; [exists p1, k1; now split|].
  split; [exact Hw1|].
  split; [exists p2, k2; now split|].
  exact Hw2.
Qed.


(** What [exits_with] promises holds in particular when nothing else is
    scheduled in between. *)
Lemma exits_with_run {A} (P : State -> Prop) (p : Async State A) (w : World State) :
  exits_with P p -> P (state (exec env p w)).
Proof.
  intros H. revert w. unfold exec.
  induction H; intros w; simpl; auto.
Qed.

(** With a resolvable path the release of the flag is the last step of
    [sendMessage] on every exit, also when other handlers run while the
    request is in flight. *)
Lemma sendMessage_exits_released (pathname : string) (documentName : option string)
    (messageText : string) :
  getChatParams pathname <> None ->
  exits_with (fun s => isLoading s = false)
             (sendMessage pathname documentName messageText).
Proof.
  intros Hres. unfold sendMessage.
  destruct (getChatParams pathname) as [chatParams|]; [clear Hres|congruence].
  cbn.
  repeat first
    [ apply exits_return; reflexivity
    | apply exits_SetState
    | apply exits_Console
    | apply exits_Yield
    | apply exits_DateNow; intro
    | apply exits_Fetch; intros [?|?]; cbn
    | match goal with
      | |- context [if ?b then _ else _] => destruct b; cbn
      end
    | match goal with
      | |- context [@body ?D ?r] => destruct (@body D r); cbn
      end ].
Qed.

(** Every event of a session leaves the flag released if it was. *)
Lemma step_isLoading (h : Hook) (ev : ChatEvent) :
  isLoading (state (world h)) = false ->
  isLoading (state (world (step env h ev))) = false.
Proof.
  intros Hidle. destruct ev as [messageText|pathname]; simpl.
  - rewrite sendMessage_isLoading.
    now destruct (getChatParams (closure_pathname (memo h))).
  - destruct (String.eqb (closure_pathname (memo h)) pathname); [exact Hidle|].
    simpl. now rewrite (proj1 (proj2 (loadProjectInfo_frame pathname (world h)))).
Qed.

Lemma fold_step_isLoading (events : list ChatEvent) (h : Hook) :
  isLoading (state (world h)) = false ->
  isLoading (state (world (fold_left (step env) events h))) = false.
Proof.
  revert h. induction events as [|ev events IH]; intros h Hidle; [exact Hidle|].
  simpl. apply IH. now apply step_isLoading.
Qed.

(** C3.  After [sendMessage] has settled, [isLoading] is false whenever the
    path resolves -- whether the backend answered, failed, or the request was
    rejected -- and is left as it was by the early return on an unresolved
    path; hence it is false after every turn of every session. *)
Theorem sendMessage_releases_isLoading :
  (forall (pathname : string) (documentName : option string)
          (messageText : string) (w : World State),
      isLoading (state (exec env (sendMessage pathname documentName messageText) w))
      = match getChatParams pathname with
        | Some _ => false
        | None => isLoading (state w)
        end)
  /\ (forall (pathname : string) (events : list ChatEvent),
         isLoading (state (world (session env pathname events))) = false).
Proof.
  split; [exact sendMessage_isLoading|].
  intros pathname events. unfold session. apply fold_step_isLoading.
  unfold mount. simpl.
  now rewrite (proj1 (proj2 (loadProjectInfo_frame pathname (boot initial)))).
Qed.

(** The history of a session only grows: every event appends (possibly
    nothing) to what was there. *)
Lemma step_append_only (h : Hook) (ev : ChatEvent) :
  exists suffix,
    messages (state (world (step env h ev)))
    = (messages (state (world h)) ++ suffix)%list.
Proof.
  destruct ev as [messageText|pathname]; simpl.
  - apply sendMessage_append_only.
  - exists []. rewrite app_nil_r.
    destruct (String.eqb (closure_pathname (memo h)) pathname); [reflexivity|].
    simpl. now rewrite (proj1 (loadProjectInfo_frame pathname (world h))).
Qed.

(** Without navigation the callback of a session is the one of the first
    render: it closed over [documentName = null]. *)
Lemma session_closure (pathname : string) (events : list ChatEvent) :
  Forall (fun ev => match ev with Send _ => True | Navigate _ => False end) events ->
  memo (session env pathname events)
  = {| closure_pathname := pathname; closure_documentName := None |}.
Proof.
  unfold session.
  assert (H0 : memo (mount env pathname)
               = {| closure_pathname := pathname; closure_documentName := None |})
    by reflexivity.
  revert H0. generalize (mount env pathname) as h.
  induction events as [|ev events IH]; intros h H0 Hall; [exact H0|].
  inversion Hall as [|? ? Hev Hrest]; subst.
  destruct ev as [messageText|]; [|contradiction].
  simpl. apply IH; [exact H0|exact Hrest].
Qed.

End Chat.

(** *** Concrete runs *)

Section ChatRuns.

Import useCustomChat.

(** C2 (counterexample to the claim as stated).  The backend replies 200 with
    a body whose [error] field is present but empty.  The turn then counts as
    a success: an ai message is appended and the error state is null. *)
Lemma empty_error_field_is_success :
  (exists response data,
      net empty_error_env 1 (chat_request abc_123 question) = inl response
      /\ ok response = true /\ body response = inl data
      /\ ChatResponse.error data <> None)
  /\ messages (state (world (session empty_error_env "/chat/abc/123" [Send question])))
     = [human_message 1700000000000 question;
        ai_message 1700000000001 "It is a specification."]
  /\ error (state (world (session empty_error_env "/chat/abc/123" [Send question])))
     = None
  /\ ~ (messages (state (world (session empty_error_env "/chat/abc/123"
                                        [Send question])))
        = [human_message 1700000000000 question]
        /\ error (state (world (session empty_error_env "/chat/abc/123"
                                        [Send question]))) <> None).
Proof.
  split; [|split; [reflexivity|split; [reflexivity|]]].
  - do 2 eexists. split; [reflexivity|]. split; [reflexivity|].
    split; [reflexivity|discriminate].
  - intros [H _]. discriminate H.
Qed.

(** C7 (the code at the failing inputs).
    (1) Activation on "/chat/u1/p1" with project info naming "spec.pdf" sets
        the document name; the first successful answer, with sources
        ["other.pdf"], overwrites it.
    (2) Without project info names, the first answer sets "a.pdf" and the
        second answer overwrites it with "b.pdf".
    (3) A project info reply that arrives after the first answer overwrites
        the name taken from the sources. *)
Theorem documentName_is_overwritten :
  (let env := backend (created "u1" "p1") (project_info ["spec.pdf"])
                      (fun _ => answered "It is a specification." ["other.pdf"] None)
                      sample_clock in
   documentName (state (world (session env "/chat/u1/p1" []))) = Some "spec.pdf"
   /\ documentName (state (world (session env "/chat/u1/p1" [Send question])))
      = Some "other.pdf")
  /\ (let env := backend (created "u1" "p1") (project_info [])
                         (fun n => match n with
                                   | 1 => answered "First." ["a.pdf"] None
                                   | _ => answered "Second." ["b.pdf"] None
                                   end)
                         sample_clock in
      documentName (state (world (session env "/chat/u1/p1" [Send "One?"])))
      = Some "a.pdf"
      /\ documentName (state (world (session env "/chat/u1/p1" [Send "One?"; Send "Two?"])))
         = Some "b.pdf")
  /\ (let env := backend (created "u1" "p1") (project_info ["b.pdf"])
                         (fun _ => answered "First." ["a.pdf"] None)
                         sample_clock in
      match advance env (loadProjectInfo "/chat/u1/p1") (boot initial) with
      | (w0, Pending req k) =>
          let w1 := exec env (sendMessage "/chat/u1/p1" None "One?") w0 in
          let w2 := exec env (k (net env 0 req)) w1 in
          documentName (state w0) = None
          /\ documentName (state w1) = Some "a.pdf"
          /\ documentName (state w2) = Some "b.pdf"
      | _ => False
      end).
Proof. repeat split. Qed.

End ChatRuns.

(* ================================================================== *)
(** ** The theorems at concrete inputs *)
(* ================================================================== *)

Section Instances.

Import useCustomChat.

(** C6 at the reply [{user_hash: "abc", project_id: "123"}]: the generated
    path is exactly "/chat/abc/123" and it resolves. *)
Lemma generated_path_resolves_witness :
  exists w' chatParams,
    run sample_env (DemoPage.handleFileUpload sample_file) (boot DemoPage.initial)
    = (w', inl "/chat/abc/123")
    /\ chatId (state w') = Some "/chat/abc/123"
    /\ getChatParams "/chat/abc/123" = Some chatParams.
Proof.
  exact (generated_path_resolves sample_env sample_file (boot DemoPage.initial)
           {| status := 200; statusText := "OK";
              body := inl {| CreateResult.user_hash := "abc";
                             CreateResult.project_id := "123" |} |}
           {| CreateResult.user_hash := "abc"; CreateResult.project_id := "123" |}
           eq_refl eq_refl eq_refl).
Defined.

(** C9 at the path "/": nothing is sent, nothing is appended. *)
Lemma sendMessage_unresolved_witness :
  getChatParams "/" = None
  /\ exists w',
       advance sample_env (sendMessage "/" None question) (boot initial)
       = (w', Settled (inl tt))
       /\ run sample_env (sendMessage "/" None question) (boot initial)
          = (w', inl tt)
       /\ requests w' = []
       /\ messages (state w') = []
       /\ error (state w') = Some "Invalid chat URL format"
       /\ isLoading (state w') = false
       /\ documentName (state w') = None.
Proof.
  split; [reflexivity|].
  apply (sendMessage_unresolved sample_env "/" None question
           (boot initial)).
  reflexivity.
Defined.

(** C2 at HTTP 500: one human message, no ai message, an error. *)
Lemma sendMessage_backend_failure_witness :
  getChatParams "/chat/abc/123" = Some abc_123
  /\ chat_failure (net failing_env 0 (chat_request abc_123 question))
  /\ let s' := state (exec failing_env
                        (sendMessage "/chat/abc/123" None question)
                        (boot initial)) in
     messages s' = [human_message 1700000000000 question]
     /\ (exists text, error s' = Some text /\ text <> "")
     /\ error s' <> None
     /\ isLoading s' = false.
Proof.
  assert (Hfail : chat_failure
                    (net failing_env 0 (chat_request abc_123 question))).
  { eexists. split; [reflexivity|]. left. reflexivity. }
  split; [reflexivity|]. split; [exact Hfail|].
  apply (sendMessage_backend_failure failing_env "/chat/abc/123" None
           question (boot initial) abc_123 eq_refl Hfail).
Defined.

(** C5 at two questions on "/chat/abc/123". *)
Lemma two_successful_turns_witness :
  (exists pending k,
     advance sample_env (sendMessage "/chat/abc/123" None question) (boot initial)
     = (pending, Pending (chat_request abc_123 question) k)
     /\ messages (state pending) = [human_message 1700000000000 question])
  /\ messages (state (exec sample_env (sendMessage "/chat/abc/123" None question)
                           (boot initial)))
     = [human_message 1700000000000 question;
        ai_message 1700000000001 "It is a specification."]
  /\ (exists pending k,
        advance sample_env (sendMessage "/chat/abc/123" None "Who wrote it?")
                (exec sample_env (sendMessage "/chat/abc/123" None question)
                      (boot initial))
        = (pending, Pending (chat_request abc_123 "Who wrote it?") k)
        /\ messages (state pending)
           = [human_message 1700000000000 question;
              ai_message 1700000000001 "It is a specification.";
              human_message 1700000000002 "Who wrote it?"])
  /\ messages (state (exec sample_env (sendMessage "/chat/abc/123" None "Who wrote it?")
                           (exec sample_env
                                 (sendMessage "/chat/abc/123" None question)
                                 (boot initial))))
     = [human_message 1700000000000 question;
        ai_message 1700000000001 "It is a specification.";
        human_message 1700000000002 "Who wrote it?";
        ai_message 1700000000003 "It is a specification."].
Proof.
  assert (Hs1 : chat_success
                  (net sample_env 0 (chat_request abc_123 question)) sample_data).
  { eexists. repeat split. }
  assert (Hs2 : chat_success
                  (net sample_env 1 (chat_request abc_123 "Who wrote it?"))
                  sample_data).
  { eexists. repeat split. }
  exact (two_successful_turns sample_env "/chat/abc/123" abc_123 None None
           question "Who wrote it?" sample_data sample_data (boot initial)
           eq_refl eq_refl Hs1 Hs2).
Defined.

End Instances.

(* ================================================================== *)
(** ** Further properties of the chat hook *)
(* ================================================================== *)

Section ChatMore.

Import useCustomChat.

Variable env : Env.

(** The run of a turn on a resolvable path, by the way the request settles. *)
Lemma sendMessage_settles (pathname : string) (documentName : option string)
    (messageText : string) (w : World State) (chatParams : ChatParams) :
  getChatParams pathname = Some chatParams ->
  let r := net env (List.length (requests w)) (chat_request chatParams messageText) in
  exists w',
    run env (sendMessage pathname documentName messageText) w = (w', inl tt)
    /\ requests w' = (requests w ++ [chat_request chatParams messageText])%list
    /\ alerts w' = alerts w
    /\ isLoading (state w') = false
    /\ error (state w') = turn_error r
    /\ match turn_error r, r with
       | None, inl {| body := inl data |} =>
           messages (state w')
           = (messages (state w)
                ++ [human_message (clock env (ticks w)) messageText;
                    ai_message (clock env (Datatypes.S (ticks w)))
                               (ChatResponse.answer data)])%list
       | _, _ =>
           messages (state w')
           = (messages (state w)
                ++ [human_message (clock env (ticks w)) messageText])%list
       end.
Proof.
  intros Hres r. subst r. unfold sendMessage. rewrite Hres.
  unfold chat_request, turn_error. cbn.
  repeat match goal with
         | |- context [net env ?n ?req] =>
             destruct (net env n req) as [[st stt [data|[msg|]]]|[msg|]]; cbn
         | |- context [@ok ?D ?r] => destruct (@ok D r); cbn
         | |- context [ChatResponse.error ?d] =>
             destruct (ChatResponse.error d) as [e|]; cbn
         | |- context [String.eqb ?e ""] => destruct (String.eqb e ""); cbn
         | |- context [if ?b then _ else _] => destruct b; cbn
         end;
    eexists; (split; [reflexivity|]); cbn; rewrite <- ?app_assoc; repeat split.
Qed.

(** X1.  After a turn on a resolvable path the error state is a function of the
    reply alone, whatever error was there before: the text of a rejection or
    of an unreadable body ("Unknown error occurred" when what was thrown is
    not an Error), "Chat request failed: " and the status text, the
    non-empty error field, or null for a success.  The ai message is appended
    exactly when that error is null; otherwise only the question is. *)
Theorem sendMessage_outcome (pathname : string) (documentName : option string)
    (messageText : string) (w : World State) (chatParams : ChatParams) :
  getChatParams pathname = Some chatParams ->
  let r := net env (List.length (requests w)) (chat_request chatParams messageText) in
  let s' := state (exec env (sendMessage pathname documentName messageText) w) in
  let human := human_message (clock env (ticks w)) messageText in
  error s' = turn_error r
  /\ ((exists answer,
         messages s'
         = (messages (state w)
              ++ [human; ai_message (clock env (Datatypes.S (ticks w))) answer])%list)
      <-> turn_error r = None)
  /\ (turn_error r <> None -> messages s' = (messages (state w) ++ [human])%list).
Proof.
  intros Hres r s' human. subst s'. unfold exec.
  destruct (sendMessage_settles pathname documentName messageText w chatParams Hres)
    as (w' & -> & _ & _ & _ & He & Hm).
  fold r in He, Hm. simpl. split; [exact He|].
  destruct (turn_error r) as [text|] eqn:Et.
  - split; [|intros _; exact Hm].
    split; [|discriminate].
    intros [answer Ha]. rewrite Hm in Ha.
    apply app_inv_head in Ha. discriminate.
  - split; [|congruence]. split; [reflexivity|]. intros _.
    destruct r as [[st stt [data|err]]|err]; try discriminate.
    + exists (ChatResponse.answer data). exact Hm.
    + unfold turn_error in Et. destruct (ok _); discriminate.
Qed.

(** The shape of what one turn appends: nothing, the human message, or the
    human message and the ai message. *)
Lemma sendMessage_appends (pathname : string) (documentName : option string)
    (messageText : string) (w : World State) :
  let w' := exec env (sendMessage pathname documentName messageText) w in
  messages (state w') = messages (state w)
  \/ (exists h, Message.type h = Message.human
                /\ messages (state w') = (messages (state w) ++ [h])%list)
  \/ (exists h a, Message.type h = Message.human /\ Message.type a = Message.ai
                  /\ messages (state w') = (messages (state w) ++ [h; a])%list).
Proof.
  intros w'. subst w'. unfold exec.
  destruct (getChatParams pathname) as [chatParams|] eqn:Hres.
  - destruct (sendMessage_settles pathname documentName messageText w chatParams Hres)
      as (w' & -> & _ & _ & _ & _ & Hm).
    simpl. right.
    destruct (turn_error _);
      [left; eexists; split; [|exact Hm]; reflexivity|].
    destruct (net env _ _) as [[st stt [data|err]]|err];
      try (left; eexists; split; [|exact Hm]; reflexivity).
    right. do 2 eexists. split; [|split; [|exact Hm]]; reflexivity.
  - left. unfold sendMessage. rewrite Hres. reflexivity.
Qed.

Lemma answers_follow_human (b : bool) (history : list Message.t) (h : Message.t) :
  Message.type h = Message.human ->
  answers_follow b history = true ->
  answers_follow b (history ++ [h]) = true.
Proof.
  intros Hh. revert b. induction history as [|m rest IH]; intros b; simpl.
  - now rewrite Hh.
  - destruct (Message.type m); [apply IH|].
    intros H. apply andb_true_iff in H as [-> H]. now apply IH.
Qed.

Lemma answers_follow_turn (b : bool) (history : list Message.t) (h a : Message.t) :
  Message.type h = Message.human -> Message.type a = Message.ai ->
  answers_follow b history = true ->
  answers_follow b (history ++ [h; a]) = true.
Proof.
  intros Hh Ha. revert b. induction history as [|m rest IH]; intros b; simpl.
  - now rewrite Hh, Ha.
  - destruct (Message.type m); [apply IH|].
    intros H. apply andb_true_iff in H as [-> H]. now apply IH.
Qed.

Lemma count_type_app (t : Message.MessageType) (l1 l2 : list Message.t) :
  count_type t (l1 ++ l2) = (count_type t l1 + count_type t l2)%nat.
Proof. unfold count_type. now rewrite filter_app, length_app. Qed.

Lemma step_history (h : Hook) (ev : ChatEvent) :
  answers_follow false (messages (state (world h))) = true ->
  (count_type Message.ai (messages (state (world h)))
   <= count_type Message.human (messages (state (world h))))%nat ->
  answers_follow false (messages (state (world (step env h ev)))) = true
  /\ (count_type Message.ai (messages (state (world (step env h ev))))
      <= count_type Message.human (messages (state (world (step env h ev)))))%nat
  /\ (count_type Message.human (messages (state (world (step env h ev))))
      <= count_type Message.human (messages (state (world h)))
         + sends [ev])%nat.
Proof.
  intros Hwf Hle. destruct ev as [messageText|pathname].
  - cbn [step world].
    destruct (sendMessage_appends (closure_pathname (memo h))
                (closure_documentName (memo h)) messageText (world h))
      as [E|[(hm & Hh & E)|(hm & am & Hh & Ha & E)]]; rewrite E.
    + repeat split; [assumption|assumption|lia].
    + assert (C1 : count_type Message.human [hm] = 1%nat)
        by (unfold count_type; simpl; now rewrite Hh).
      assert (C0 : count_type Message.ai [hm] = 0%nat)
        by (unfold count_type; simpl; now rewrite Hh).
      rewrite !count_type_app, C1, C0.
      repeat split; [now apply answers_follow_human|lia|].
      change (sends [Send messageText]) with 1%nat. lia.
    + assert (C1 : count_type Message.human [hm; am] = 1%nat)
        by (unfold count_type; simpl; now rewrite Hh, Ha).
      assert (C0 : count_type Message.ai [hm; am] = 1%nat)
        by (unfold count_type; simpl; now rewrite Hh, Ha).
      rewrite !count_type_app, C1, C0.
      repeat split; [now apply answers_follow_turn|lia|].
      change (sends [Send messageText]) with 1%nat. lia.
  - cbn [step].
    destruct (String.eqb (closure_pathname (memo h)) pathname);
      [repeat split; [assumption|assumption|lia]|].
    cbn [world].
    rewrite (proj1 (loadProjectInfo_frame env pathname (world h))).
    repeat split; [assumption|assumption|lia].
Qed.

(** X5.  In every session the history is a sequence of turns: every ai message
    comes right after a human message (so the history never starts with an
    ai message and never has two in a row), there are at most as many ai
    messages as human ones, and at most one human message per question
    asked. *)
Theorem session_history_is_turns (pathname : string) (events : list ChatEvent) :
  let history := messages (state (world (session env pathname events))) in
  answers_follow false history = true
  /\ (count_type Message.ai history <= count_type Message.human history)%nat
  /\ (count_type Message.human history <= sends events)%nat.
Proof.
  unfold session.
  assert (H0 : messages (state (world (mount env pathname))) = []).
  { unfold mount. simpl.
    now rewrite (proj1 (loadProjectInfo_frame env pathname (boot initial))). }
  assert (Hgen : forall (evs : list ChatEvent) (h : Hook),
             answers_follow false (messages (state (world h))) = true ->
             (count_type Message.ai (messages (state (world h)))
              <= count_type Message.human (messages (state (world h))))%nat ->
             let history := messages (state (world (fold_left (step env) evs h))) in
             answers_follow false history = true
             /\ (count_type Message.ai history <= count_type Message.human history)%nat
             /\ (count_type Message.human history
                 <= count_type Message.human (messages (state (world h)))
                    + sends evs)%nat).
  { induction evs as [|ev evs IH]; intros h Hwf Hle; simpl.
    - repeat split; [assumption|assumption|unfold sends; simpl; lia].
    - destruct (step_history h ev Hwf Hle) as (Hwf' & Hle' & Hcount).
      destruct (IH (step env h ev) Hwf' Hle') as (H1 & H2 & H3).
      repeat split; [exact H1|exact H2|].
      assert (Hs : sends (ev :: evs) = (sends [ev] + sends evs)%nat).
      { unfold sends. change (ev :: evs) with ([ev] ++ evs)%list.
        now rewrite filter_app, length_app. }
      rewrite Hs. lia. }
  specialize (Hgen events (mount env pathname)).
  rewrite H0 in Hgen. simpl in Hgen.
  destruct Hgen as (H1 & H2 & H3); [reflexivity|unfold count_type; simpl; lia|].
  repeat split; assumption.
Qed.

(** X2.  While the chat request is in flight -- whatever it will settle to -- the
    question is already in the history, the flag is up, the previous error is
    cleared, and the one request issued is the chat request for the identity
    of the path and the question. *)
Theorem sendMessage_pending (pathname : string) (documentName : option string)
    (messageText : string) (w : World State) (chatParams : ChatParams) :
  getChatParams pathname = Some chatParams ->
  exists pending k,
    advance env (sendMessage pathname documentName messageText) w
    = (pending, Pending (chat_request chatParams messageText) k)
    /\ messages (state pending)
       = (messages (state w)
            ++ [human_message (clock env (ticks w)) messageText])%list
    /\ isLoading (state pending) = true
    /\ error (state pending) = None
    /\ useCustomChat.documentName (state pending)
       = useCustomChat.documentName (state w)
    /\ requests pending = (requests w ++ [chat_request chatParams messageText])%list.
Proof.
  intros Hres. unfold sendMessage. rewrite Hres. unfold chat_request. cbn.
  do 2 eexists. split; [reflexivity|]. repeat split.
Qed.

(** X3.  [sendMessage] never rejects and never alerts, on any path and however
    the request settles; it issues exactly one request, the chat request,
    when the path resolves and none when it does not. *)
Theorem sendMessage_never_rejects (pathname : string) (documentName : option string)
    (messageText : string) (w : World State) :
  exists w',
    run env (sendMessage pathname documentName messageText) w = (w', inl tt)
    /\ alerts w' = alerts w
    /\ requests w'
       = match getChatParams pathname with
         | Some chatParams =>
             (requests w ++ [chat_request chatParams messageText])%list
         | None => requests w
         end.
Proof.
  destruct (getChatParams pathname) as [chatParams|] eqn:Hres.
  - destruct (sendMessage_settles pathname documentName messageText w chatParams Hres)
      as (w' & E & Hq & Ha & _).
    exists w'. auto.
  - unfold sendMessage. rewrite Hres. eexists. split; [reflexivity|]. split; reflexivity.
Qed.

(** The run of the project info effect, by the way its request settles. *)
Lemma loadProjectInfo_settles (pathname : string) (w : World State) :
  exists w',
    run env (loadProjectInfo pathname) w = (w', inl tt)
    /\ messages (state w') = messages (state w)
    /\ isLoading (state w') = isLoading (state w)
    /\ error (state w') = error (state w)
    /\ alerts w' = alerts w
    /\ match getChatParams pathname with
       | None => requests w' = requests w
                 /\ useCustomChat.documentName (state w')
                    = useCustomChat.documentName (state w)
       | Some chatParams =>
           let req := GET_api_projects (user_hash chatParams) (project_id chatParams) in
           requests w' = (requests w ++ [req])%list
           /\ useCustomChat.documentName (state w')
              = match offered_name (net env (List.length (requests w)) req) with
                | Some name => Some name
                | None => useCustomChat.documentName (state w)
                end
       end.
Proof.
  unfold loadProjectInfo, offered_name.
  destruct (getChatParams pathname) as [chatParams|]; cbn.
  - repeat match goal with
           | |- context [net env ?n ?req] =>
               destruct (net env n req) as [[st stt [info|err]]|err]; cbn
           | |- context [@ok ?D ?r] => destruct (@ok D r); cbn
           | |- context [ProjectInfo.document_names ?i] =>
               destruct (ProjectInfo.document_names i) as [|name names]; cbn
           end;
      eexists; (split; [reflexivity|]); cbn; repeat split.
  - eexists. split; [reflexivity|]. repeat split.
Qed.

(** X4.  The project info effect, for every way its request can settle: it never
    rejects, alerts nothing, leaves the history, the flag and the error state
    alone (a failure is only logged), issues its one request exactly when the
    path resolves, and replaces the document name by the first name of a
    readable success reply that has one -- otherwise the name stays. *)
Theorem loadProjectInfo_outcome (pathname : string) (w : World State) :
  exists w',
    run env (loadProjectInfo pathname) w = (w', inl tt)
    /\ messages (state w') = messages (state w)
    /\ isLoading (state w') = isLoading (state w)
    /\ error (state w') = error (state w)
    /\ alerts w' = alerts w
    /\ match getChatParams pathname with
       | None => requests w' = requests w
                 /\ useCustomChat.documentName (state w')
                    = useCustomChat.documentName (state w)
       | Some chatParams =>
           let req := GET_api_projects (user_hash chatParams) (project_id chatParams) in
           requests w' = (requests w ++ [req])%list
           /\ useCustomChat.documentName (state w')
              = match offered_name (net env (List.length (requests w)) req) with
                | Some name => Some name
                | None => useCustomChat.documentName (state w)
                end
       end.
Proof.
  unfold loadProjectInfo, offered_name.
  destruct (getChatParams pathname) as [chatParams|]; cbn.
  - repeat match goal with
           | |- context [net env ?n ?req] =>
               destruct (net env n req) as [[st stt [info|err]]|err]; cbn
           | |- context [@ok ?D ?r] => destruct (@ok D r); cbn
           | |- context [ProjectInfo.document_names ?i] =>
               destruct (ProjectInfo.document_names i) as [|name names]; cbn
           end;
      eexists; (split; [reflexivity|]); cbn; repeat split.
  - eexists. split; [reflexivity|]. repeat split.
Qed.

(** One event never clears a document name. *)
Lemma step_keeps_documentName (h : Hook) (ev : ChatEvent) :
  useCustomChat.documentName (state (world h)) <> None ->
  useCustomChat.documentName (state (world (step env h ev))) <> None.
Proof.
  intros Hset. destruct ev as [messageText|pathname]; cbn [step world].
  - unfold exec, sendMessage.
    destruct (getChatParams (closure_pathname (memo h))) as [chatParams|]; cbn;
      [|exact Hset].
    repeat match goal with
           | |- context [net env ?n ?req] =>
               destruct (net env n req) as [[st stt [data|err]]|err]; cbn
           | |- context [@ok ?D ?r] => destruct (@ok D r); cbn
           | |- context [if ?b then _ else _] => destruct b eqn:?; cbn
           end; try exact Hset.
    match goal with
    | H : _ && _ = true |- _ => apply andb_true_iff in H as [_ Hlen]
    end.
    destruct (ChatResponse.sources data); [discriminate Hlen|discriminate].
  - destruct (String.eqb (closure_pathname (memo h)) pathname); [exact Hset|].
    cbn [world]. unfold exec.
    destruct (loadProjectInfo_settles pathname (world h))
      as (w' & -> & _ & _ & _ & _ & H).
    simpl.
    destruct (getChatParams pathname) as [chatParams|].
    + destruct H as [_ ->]. now destruct (offered_name _).
    + destruct H as [_ ->]. exact Hset.
Qed.

(** X6.  Once the session has a document name it keeps having one: later events
    may replace the name but never clear it. *)
Theorem session_keeps_documentName (pathname : string)
    (events later : list ChatEvent) :
  useCustomChat.documentName (state (world (session env pathname events))) <> None ->
  useCustomChat.documentName
    (state (world (session env pathname (events ++ later)))) <> None.
Proof.
  unfold session. rewrite fold_left_app.
  generalize (fold_left (step env) events (mount env pathname)) as h.
  induction later as [|ev later IH]; intros h Hset; [exact Hset|].
  simpl. apply IH. now apply step_keeps_documentName.
Qed.

Lemma fold_step_unresolved (events : list ChatEvent) (h : Hook) :
  getChatParams (closure_pathname (memo h)) = None ->
  no_navigation events ->
  let h' := fold_left (step env) events h in
  requests (world h') = requests (world h)
  /\ messages (state (world h')) = messages (state (world h))
  /\ isLoading (state (world h')) = isLoading (state (world h))
  /\ useCustomChat.documentName (state (world h'))
     = useCustomChat.documentName (state (world h))
  /\ error (state (world h'))
     = match events with
       | [] => error (state (world h))
       | _ :: _ => Some "Invalid chat URL format"
       end.
Proof.
  revert h. induction events as [|ev events IH]; intros h Hnone Hnav; simpl.
  - repeat split.
  - inversion Hnav as [|? ? Hev Hrest]; subst.
    destruct ev as [messageText|]; [|contradiction].
    specialize (IH (step env h (Send messageText))).
    cbn [step memo] in IH. specialize (IH Hnone Hrest).
    cbn [step]. destruct IH as (H1 & H2 & H3 & H4 & H5).
    rewrite H1, H2, H3, H4, H5.
    unfold exec, sendMessage. rewrite Hnone. cbn.
    repeat split. now destruct events.
Qed.

(** X7.  A session on a path that does not resolve is inert: however many
    questions are asked, no request is ever issued, the history stays empty,
    no document name is set, the flag stays down, and each question only
    records "Invalid chat URL format". *)
Theorem unresolved_session_is_inert (pathname : string) (events : list ChatEvent) :
  getChatParams pathname = None ->
  no_navigation events ->
  let s := state (world (session env pathname events)) in
  requests (world (session env pathname events)) = []
  /\ messages s = []
  /\ isLoading s = false
  /\ useCustomChat.documentName s = None
  /\ error s = match events with
               | [] => None
               | _ :: _ => Some "Invalid chat URL format"
               end.
Proof.
  intros Hnone Hnav s. subst s. unfold session.
  destruct (fold_step_unresolved events (mount env pathname) Hnone Hnav)
    as (H1 & H2 & H3 & H4 & H5).
  rewrite H1, H2, H3, H4, H5.
  unfold mount, exec, loadProjectInfo. rewrite Hnone. cbn. repeat split.
Qed.

End ChatMore.

(* ================================================================== *)
(** ** Further properties of the page *)
(* ================================================================== *)

Section PageMore.

Import useCustomChat.

Variable env : Env.

(** X14.  The landing page around ANY upload function passed as [onFileUpload]:
    for a file within the limit the handler never rejects; the upload
    function starts with the spinner state set (uploading, the file's name);
    when it has settled -- fulfilled or rejected -- the spinner state is
    released, and the notice "Upload failed. Please try again." is shown
    exactly when it rejected.  The handler issues no request of its own. *)
Theorem LandingPage_upload_release
    (onFileUpload : File.t -> Async Page string) (file : File.t) (w : World Page) :
  (File.size file <= size_limit)%N ->
  let started :=
    with_state (fun s => {| appState := appState s; chatId := chatId s;
                            dragOver := dragOver s; uploading := true;
                            uploadingFileName := File.name file |}) w in
  let upload := run env (onFileUpload file) started in
  exists w',
    run env (LandingPage.handleFileUpload onFileUpload file) w = (w', inl tt)
    /\ uploading (state w') = false
    /\ uploadingFileName (state w') = ""
    /\ appState (state w') = appState (state (fst upload))
    /\ chatId (state w') = chatId (state (fst upload))
    /\ requests w' = requests (fst upload)
    /\ alerts w'
       = (alerts (fst upload)
            ++ match snd upload with
               | inl _ => []
               | inr _ => ["Upload failed. Please try again."]
               end)%list.
Proof.
  intros Hsize started upload. subst upload.
  unfold LandingPage.handleFileUpload.
  apply N.leb_le in Hsize. unfold size_limit in Hsize.
  rewrite N.ltb_antisym, Hsize. cbn [negb].
  unfold try_catch_finally. cbn [bind setUploadingFileName setUploading setState run].
  rewrite run_finally, run_try_catch, run_bind.
  match goal with
  | |- context [run env (onFileUpload file) (with_state ?f (with_state ?g w))] =>
      change (with_state f (with_state g w)) with started
  end.
  destruct (run env (onFileUpload file) started) as [w1 [chatUrl|err]]; cbn.
  - eexists. split; [reflexivity|]. cbn. repeat split. now rewrite app_nil_r.
  - eexists. split; [reflexivity|]. cbn. repeat split.
Qed.

(** X13.  How the upload request of [DemoPage] ends, for every way the request can
    settle: it rejects with the very error that occurred -- the rejection of
    the fetch, "Upload failed: " and the status text for a failure status,
    the rejection of an unreadable body -- and then leaves phase and path as
    they were; it fulfils with "/chat/" + user_hash + "/" + project_id
    exactly for a readable success reply, and then the phase is share and the
    path is stored. *)
Theorem DemoPage_upload_outcome (file : File.t) (w : World Page) :
  let r := net env (List.length (requests w)) (POST_api_create (create_form file)) in
  exists w',
    run env (DemoPage.handleFileUpload file) w
    = (w', match r with
           | inr err => inr err
           | inl response =>
               if ok response then
                 match body response with
                 | inl result =>
                     inl ("/chat/" ++ CreateResult.user_hash result ++ "/"
                                   ++ CreateResult.project_id result)
                 | inr err => inr err
                 end
               else inr (JS.Error ("Upload failed: " ++ statusText response))
           end)
    /\ match snd (run env (DemoPage.handleFileUpload file) w) with
       | inl chatUrl =>
           appState (state w') = share /\ chatId (state w') = Some chatUrl
       | inr _ =>
           appState (state w') = appState (state w)
           /\ chatId (state w') = chatId (state w)
       end.
Proof.
  unfold DemoPage.handleFileUpload, create_form. cbn.
  repeat match goal with
         | |- context [net env ?n ?req] =>
             destruct (net env n req) as [[st stt [result|err]]|err]; cbn
         | |- context [@ok ?D ?r] => destruct (@ok D r); cbn
         end;
    eexists; (split; [reflexivity|]); cbn; split; reflexivity.
Qed.

(** X15.  Of the files dropped together only the first PDF-typed one is uploaded:
    files before it that are not PDF-typed and all files after it are
    ignored. *)
Theorem drop_uploads_first_pdf (before after : list File.t) (pdfFile : File.t)
    (w : World Page) :
  Forall (fun file => is_pdf file = false) before ->
  is_pdf pdfFile = true ->
  (File.size pdfFile <= size_limit)%N ->
  requests (exec env (LandingPage.handleDrop DemoPage.handleFileUpload
                                             (before ++ pdfFile :: after)) w)
  = (requests w ++ [POST_api_create (create_form pdfFile)])%list.
Proof.
  intros Hbefore Hpdf Hsize. unfold exec. rewrite LandingPage_handleDrop_run.
  assert (Efind : List.find is_pdf (before ++ pdfFile :: after) = Some pdfFile).
  { induction Hbefore as [|file before Hfile _ IH]; simpl.
    - now rewrite Hpdf.
    - now rewrite Hfile. }
  rewrite Efind.
  match goal with
  | |- context [run env _ ?w0] =>
      destruct (LandingPage_handleFileUpload_run env pdfFile w0) as (w' & E & H)
  end.
  rewrite E. simpl.
  apply N.leb_le in Hsize. rewrite N.ltb_antisym, Hsize in H. simpl in H.
  now destruct H as (-> & _).
Qed.

(** X12.  The phase moves only along landing -> share (an upload that succeeded,
    which issued exactly one create request) and share -> landing ("create
    another", which clears the path).  The chat phase is never entered or
    left by an event, and in it every event leaves the page untouched. *)
Theorem phase_transitions (w : World Page) (ev : PageEvent) :
  let before := appState (state w) in
  let w' := dispatch env w ev in
  match before, appState (state w') with
  | landing, landing => True
  | landing, share =>
      (exists files, ev = Drop files \/ ev = FileInputChange files)
      /\ exists file, requests w' = (requests w ++ [POST_api_create (create_form file)])%list
  | share, share => w' = w
  | share, landing => ev = CreateNew /\ chatId (state w') = None
                      /\ requests w' = requests w
  | chat, chat => w' = w
  | _, _ => False
  end.
Proof.
  intros before w'. subst before w'.
  unfold dispatch, handler, DemoPage.renderContent.
  destruct (appState (state w)) eqn:Ephase; destruct ev;
    try (cbn; rewrite Ephase; exact I);
    try (unfold exec; cbn; rewrite ?Ephase; reflexivity).
  - (* drop *)
    unfold exec. rewrite LandingPage_handleDrop_run.
    destruct (List.find is_pdf files) as [pdfFile|]; [|cbn; now rewrite Ephase].
    match goal with
    | |- context [run env _ ?w0] =>
        destruct (LandingPage_handleFileUpload_run env pdfFile w0) as (w' & E & H)
    end.
    rewrite E. simpl.
    destruct (size_limit <? File.size pdfFile)%N.
    + destruct H as (_ & _ & ->). cbn. now rewrite Ephase.
    + destruct H as (Hq & _ & [(Hp & _)|(Hp & _)]); rewrite Hp; cbn.
      * now rewrite Ephase.
      * split; [exists files; now left|exists pdfFile; exact Hq].
  - (* file picker *)
    unfold exec. rewrite LandingPage_handleFileInputChange_run.
    destruct files as [|file files]; [cbn; now rewrite Ephase|].
    destruct (LandingPage_handleFileUpload_run env file w) as (w' & E & H).
    rewrite E. simpl.
    destruct (size_limit <? File.size file)%N.
    + destruct H as (_ & _ & ->). now rewrite Ephase.
    + destruct H as (Hq & _ & [(Hp & _)|(Hp & _)]); rewrite Hp.
      * now rewrite Ephase.
      * split; [exists (file :: files); now right|exists file; exact Hq].
  - (* create another *)
    cbn. repeat split.
Qed.

(** X11.  A page opened on a path that starts with "/chat/" is in the chat phase
    holding that path, and stays exactly so under every sequence of events:
    no upload can be started from it. *)
Theorem chat_page_is_fixed (currentPath : string) (events : list PageEvent) :
  JS.startsWith "/chat/" currentPath = true ->
  page env currentPath events = mountPage env currentPath
  /\ appState (state (page env currentPath events)) = chat
  /\ chatId (state (page env currentPath events)) = Some currentPath
  /\ requests (page env currentPath events) = [].
Proof.
  intros Hchat.
  assert (Hmount : appState (state (mountPage env currentPath)) = chat
                   /\ chatId (state (mountPage env currentPath)) = Some currentPath
                   /\ requests (mountPage env currentPath) = []).
  { unfold mountPage, exec, DemoPage.useEffect. rewrite Hchat. cbn. repeat split. }
  assert (Hfix : forall evs w, appState (state w) = chat ->
                               fold_left (dispatch env) evs w = w).
  { induction evs as [|ev evs IH]; intros w Hw; [reflexivity|].
    simpl.
    assert (E : dispatch env w ev = w).
    { unfold dispatch, handler, DemoPage.renderContent. rewrite Hw.
      now destruct ev. }
    rewrite E. now apply IH. }
  unfold page. rewrite (Hfix events _ (proj1 Hmount)).
  split; [reflexivity|exact Hmount].
Qed.

Lemma prefix_append (p s : string) : String.prefix p (p ++ s) = true.
Proof.
  induction p as [|a p IH]; [now destruct s|].
  change (String.prefix (String a p) (String a p ++ s))
    with (if ascii_dec a a then String.prefix p (p ++ s) else false).
  destruct (ascii_dec a a); [exact IH|congruence].
Qed.

(** X10.  Every absolute path the chat hook resolves opens the page in the chat
    phase, holding that path. *)
Theorem resolvable_path_opens_chat (currentPath : string) :
  JS.startsWith "/" currentPath = true ->
  getChatParams currentPath <> None ->
  appState (state (mountPage env currentPath)) = chat
  /\ chatId (state (mountPage env currentPath)) = Some currentPath.
Proof.
  intros Habs Hres.
  assert (Hchat : JS.startsWith "/chat/" currentPath = true).
  { destruct currentPath as [|c rest]; [discriminate|].
    unfold JS.startsWith in Habs.
    change (String.prefix "/" (String c rest))
      with (if ascii_dec "/" c then String.prefix "" rest else false) in Habs.
    destruct (ascii_dec "/" c) as [<-|]; [|discriminate].
    pose proof (join_split "/" rest) as Hjoin.
    destruct (JS.split "/" rest) as [|seg1 [|seg2 [|seg3 more]]] eqn:E;
      try (exfalso; apply Hres; apply getChatParams_short;
           rewrite split_sep, E; simpl; lia).
    rewrite (getChatParams_segments _ "" seg1 seg2 seg3 more) in Hres
      by (now rewrite split_sep, E).
    destruct (String.eqb_spec seg1 "chat") as [->|]; [|congruence].
    rewrite <- Hjoin. unfold JS.startsWith.
    destruct more; apply (prefix_append "/chat/"). }
  unfold mountPage, exec, DemoPage.useEffect. rewrite Hchat. cbn. split; reflexivity.
Qed.

(** X9.  The generated path gives back exactly the pair it was built from if and
    only if neither the user hash nor the project id contains a slash. *)
Theorem chat_path_round_trip_exactly (u p : string) :
  getChatParams ("/chat/" ++ u ++ "/" ++ p)
  = Some {| user_hash := u; project_id := p |}
  <-> (occurs "/" u = false /\ occurs "/" p = false).
Proof.
  split.
  - intros Hres.
    pose proof (split_segments "/" ("/chat/" ++ u ++ "/" ++ p)) as Hseg.
    destruct (JS.split "/" ("/chat/" ++ u ++ "/" ++ p))
      as [|seg0 [|seg1 [|seg2 [|seg3 more]]]] eqn:E;
      try (rewrite getChatParams_short in Hres by (rewrite E; simpl; lia);
           discriminate).
    rewrite (getChatParams_segments _ _ _ _ _ _ E) in Hres.
    destruct (String.eqb seg1 "chat"); [|discriminate].
    inversion Hres; subst seg2 seg3.
    inversion Hseg as [|? ? _ H1]; subst.
    inversion H1 as [|? ? _ H2]; subst.
    inversion H2 as [|? ? Hu H3]; subst.
    inversion H3 as [|? ? Hp _]; subst.
    now split.
  - intros [Hu Hp]. now apply chat_path_round_trip.
Qed.

Lemma split_append (sep : ascii) (a b : string) :
  JS.split sep (a ++ String sep b) = (JS.split sep a ++ JS.split sep b)%list.
Proof.
  induction a as [|c a IH].
  - apply split_sep.
  - change (String c a ++ String sep b) with (String c (a ++ String sep b)).
    destruct (Ascii.eqb c sep) eqn:Hc.
    + apply Ascii.eqb_eq in Hc. subst c. rewrite !split_sep, IH. reflexivity.
    + destruct (split_other sep c a Hc) as (seg & rest & E1 & E2).
      simpl. rewrite Hc, IH, E1. reflexivity.
Qed.

(** X8.  Whatever follows a resolving path after a further slash is ignored: the
    identity is read from the first four segments only. *)
Theorem trailing_segments_are_ignored (pathname more : string) :
  getChatParams pathname <> None ->
  getChatParams (pathname ++ "/" ++ more) = getChatParams pathname.
Proof.
  intros Hres.
  destruct (JS.split "/" pathname) as [|seg0 [|seg1 [|seg2 [|seg3 rest]]]] eqn:E;
    try (exfalso; apply Hres, getChatParams_short; rewrite E; simpl; lia).
  rewrite (getChatParams_segments pathname seg0 seg1 seg2 seg3 rest E).
  apply (getChatParams_segments _ seg0 seg1 seg2 seg3 (rest ++ JS.split "/" more)).
  change (pathname ++ "/" ++ more) with (pathname ++ String "/" more).
  now rewrite split_append, E.
Qed.

End PageMore.

(* ================================================================== *)
(** ** The relay routes *)
(* ================================================================== *)

#[local] Arguments Relay.upstream_ok : simpl never.

Section RelayProps.

Variable Json : Type.
Variable NEXT_PUBLIC_BACKEND_URL : option string.
Variable oracle : Oracle Relay.Effect (Relay.Result Json).

(** Case analysis along a route: the validation, how the upstream request
    settles, the status, the bodies, and whether the answer can be built. *)
Ltac route_cases :=
  repeat match goal with
         | |- context [oracle ?n (Relay.Upstream ?req)] =>
             destruct (oracle n (Relay.Upstream req))
               as [[st stt [txt|terr] [doc|jerr]]|err]; cbn
         | |- context [Relay.upstream_ok ?J ?r] =>
             destruct (Relay.upstream_ok J r) eqn:?; cbn
         | |- context [if ?b then _ else _] => destruct b eqn:?; cbn
         end.

(** The same analysis, keeping what the backend replied. *)
Ltac relay_data_with finish :=
  let st := fresh "st" in
  let stt := fresh "stt" in
  let txt := fresh "txt" in
  let jsn := fresh "jsn" in
  let err := fresh "err" in
  let Ho := fresh "Ho" in
  let Hok := fresh "Hok" in
  let E := fresh "E" in
  match goal with
  | |- context [oracle ?n (Relay.Upstream ?req)] =>
      destruct (oracle n (Relay.Upstream req)) as [[st stt txt jsn]|err] eqn:Ho; cbn
  end;
  [ match goal with
    | |- context [Relay.upstream_ok ?J ?r] =>
        destruct (Relay.upstream_ok J r) eqn:Hok; cbn
    end;
    [ destruct jsn; cbn; intros E; inversion E; subst;
      [ left; finish
      | right; eexists; split; reflexivity ]
    | destruct txt; cbn;
      [ match goal with
        | |- context [if ?b then _ else _] => destruct b; cbn
        end
      | ];
      intros E; inversion E; subst; right; eexists;
      (split; [reflexivity|]);
      first [ reflexivity
            | unfold Relay.answered_ok, Relay.upstream_ok in *; cbn in *;
              assumption ] ]
  | intros E; inversion E; subst; right; eexists; split; reflexivity ].

(** X16.  Both routes always answer: whatever the input and however the backend
    behaves, the handler returns a response and never throws, and it makes
    at most one request to the backend. *)
Theorem routes_always_answer :
  (forall params : Relay.ProjectInfoParams,
      exists effects response,
        Relay.serve_GET Json NEXT_PUBLIC_BACKEND_URL oracle params = (effects, inl response)
        /\ (List.length (Relay.upstream_requests effects) <= 1)%nat)
  /\ (forall request_json : option Relay.ChatFields + JS.Thrown,
         exists effects response,
           Relay.serve_POST Json NEXT_PUBLIC_BACKEND_URL oracle request_json = (effects, inl response)
           /\ (List.length (Relay.upstream_requests effects) <= 1)%nat).
Proof.
  split.
  - intros [userHash projectId]. unfold Relay.serve_GET, Relay.serve, Relay.GET, Relay.NextResponse_json. cbn.
    route_cases; do 2 eexists; (split; [reflexivity|]); cbn; lia.
  - intros [[[user_hash project_id query]|]|err]; unfold Relay.serve_POST, Relay.serve, Relay.POST, Relay.NextResponse_json; cbn.
    + route_cases; do 2 eexists; (split; [reflexivity|]); cbn; lia.
    + do 2 eexists. split; [reflexivity|]. cbn. lia.
    + do 2 eexists. split; [reflexivity|]. cbn. lia.
Qed.

(** X17.  The backend is contacted exactly when the input passes the validation,
    and then exactly once: the project route asks for
    backend + "/projects/" + userHash + "/" + projectId when both parameters
    are non-empty; the chat route posts the three fields of the body to
    backend + "/chat" when the body is readable and all three are non-empty.
    Otherwise no request leaves the route. *)
Theorem routes_forward_exactly :
  (forall (params : Relay.ProjectInfoParams),
      Relay.upstream_requests
        (fst (Relay.serve_GET Json NEXT_PUBLIC_BACKEND_URL oracle params))
      = if String.eqb (Relay.userHash params) ""
           || String.eqb (Relay.projectId params) ""
        then []
        else [Relay.project_upstream NEXT_PUBLIC_BACKEND_URL params])
  /\ (forall (request_json : option Relay.ChatFields + JS.Thrown),
         Relay.upstream_requests
           (fst (Relay.serve_POST Json NEXT_PUBLIC_BACKEND_URL oracle request_json))
         = match request_json with
           | inl (Some fields) =>
               if Relay.complete fields
               then [Relay.chat_upstream NEXT_PUBLIC_BACKEND_URL fields]
               else []
           | _ => []
           end).
Proof.
  split.
  - intros [userHash projectId].
    unfold Relay.serve_GET, Relay.serve, Relay.GET, Relay.NextResponse_json,
      Relay.project_upstream. cbn.
    route_cases; reflexivity.
  - intros [[[user_hash project_id query]|]|err];
      unfold Relay.serve_POST, Relay.serve, Relay.POST, Relay.NextResponse_json,
        Relay.chat_upstream, Relay.complete; cbn; [|reflexivity|reflexivity].
    destruct (JS.truthy user_hash), (JS.truthy project_id), (JS.truthy query);
      cbn; try reflexivity.
    route_cases; reflexivity.
Qed.

(** X18.  An input that fails the validation is answered 400 with the route's
    message, and nothing else happens: no request, no console output. *)
Theorem routes_reject_incomplete_input :
  (forall (params : Relay.ProjectInfoParams),
      Relay.userHash params = "" \/ Relay.projectId params = "" ->
      Relay.serve_GET Json NEXT_PUBLIC_BACKEND_URL oracle params
      = ([], inl {| Relay.status := 400;
                    Relay.body := Relay.ErrorBody Json "Missing userHash or projectId" |}))
  /\ (forall (fields : Relay.ChatFields),
         Relay.complete fields = false ->
         Relay.serve_POST Json NEXT_PUBLIC_BACKEND_URL oracle (inl (Some fields))
         = ([], inl {| Relay.status := 400;
                       Relay.body :=
                         Relay.ErrorBody Json
                           "Missing required fields: user_hash, project_id, or query" |})).
Proof.
  split.
  - intros [userHash projectId] H. simpl in H.
    unfold Relay.serve_GET, Relay.serve, Relay.GET, Relay.NextResponse_json. cbn.
    destruct H as [->| ->]; [reflexivity|].
    rewrite orb_true_r. reflexivity.
  - intros [user_hash project_id query] H. unfold Relay.complete in H. cbn in H.
    unfold Relay.serve_POST, Relay.serve, Relay.POST, Relay.NextResponse_json. cbn.
    destruct (JS.truthy user_hash), (JS.truthy project_id), (JS.truthy query);
      try discriminate; reflexivity.
Qed.

Lemma GET_data (params : Relay.ProjectInfoParams) (effects : list Relay.Effect)
    (response : Relay.NextResponse Json) :
  Relay.serve_GET Json NEXT_PUBLIC_BACKEND_URL oracle params = (effects, inl response) ->
  (exists data upstream,
      Relay.body Json response = Relay.DataBody Json data
      /\ Relay.status Json response = 200%N
      /\ oracle 0%nat (Relay.Upstream (Relay.project_upstream NEXT_PUBLIC_BACKEND_URL params))
         = inl upstream
      /\ Relay.upstream_ok Json upstream = true
      /\ Relay.json Json upstream = inl data)
  \/ (exists error,
         Relay.body Json response = Relay.ErrorBody Json error
         /\ Relay.answered_ok Json response = false).
Proof.
  destruct params as [userHash projectId].
  unfold Relay.serve_GET, Relay.serve, Relay.GET, Relay.NextResponse_json,
    Relay.project_upstream. cbn.
  destruct (String.eqb userHash "" || String.eqb projectId ""); cbn;
    [intros E; inversion E; right; eexists; split; reflexivity|].
  relay_data_with ltac:(repeat eexists; eassumption).
Qed.

Lemma POST_data (request_json : option Relay.ChatFields + JS.Thrown)
    (effects : list Relay.Effect) (response : Relay.NextResponse Json) :
  Relay.serve_POST Json NEXT_PUBLIC_BACKEND_URL oracle request_json
  = (effects, inl response) ->
  (exists data fields upstream,
      Relay.body Json response = Relay.DataBody Json data
      /\ Relay.status Json response = 200%N
      /\ request_json = inl (Some fields)
      /\ Relay.complete fields = true
      /\ oracle 1%nat (Relay.Upstream (Relay.chat_upstream NEXT_PUBLIC_BACKEND_URL fields))
         = inl upstream
      /\ Relay.upstream_ok Json upstream = true
      /\ Relay.json Json upstream = inl data)
  \/ (exists error,
         Relay.body Json response = Relay.ErrorBody Json error
         /\ Relay.answered_ok Json response = false).
Proof.
  destruct request_json as [[[user_hash project_id query]|]|err];
    unfold Relay.serve_POST, Relay.serve, Relay.POST, Relay.NextResponse_json,
      Relay.chat_upstream, Relay.complete; cbn;
    try (intros E; inversion E; subst; right; eexists; split; reflexivity).
  destruct (JS.truthy user_hash) eqn:Hu, (JS.truthy project_id) eqn:Hp,
    (JS.truthy query) eqn:Hq; cbn;
    try (intros E; inversion E; subst; right; eexists; split; reflexivity).
  relay_data_with
    ltac:(do 3 eexists; do 3 (split; [reflexivity|]);
          split; [cbn; now rewrite Hu, Hp, Hq|];
          split; [eassumption|]; split; [eassumption|reflexivity]).
Qed.

(** X19.  A route answers with a success status exactly when it passes on the
    backend's document: then the status is 200 and the document is the one a
    successful backend reply carried; every [{ error }] body goes out with a
    non-success status. *)
Theorem route_success_is_backend_data :
  (forall (params : Relay.ProjectInfoParams) (effects : list Relay.Effect)
          (response : Relay.NextResponse Json),
      Relay.serve_GET Json NEXT_PUBLIC_BACKEND_URL oracle params
      = (effects, inl response) ->
      (Relay.answered_ok Json response = true
       <-> exists data, Relay.body Json response = Relay.DataBody Json data)
      /\ (forall data, Relay.body Json response = Relay.DataBody Json data ->
                       Relay.status Json response = 200%N
                       /\ exists upstream,
                            oracle 0%nat (Relay.Upstream
                                            (Relay.project_upstream
                                               NEXT_PUBLIC_BACKEND_URL params))
                            = inl upstream
                            /\ Relay.upstream_ok Json upstream = true
                            /\ Relay.json Json upstream = inl data))
  /\ (forall (request_json : option Relay.ChatFields + JS.Thrown)
             (effects : list Relay.Effect) (response : Relay.NextResponse Json),
         Relay.serve_POST Json NEXT_PUBLIC_BACKEND_URL oracle request_json
         = (effects, inl response) ->
         (Relay.answered_ok Json response = true
          <-> exists data, Relay.body Json response = Relay.DataBody Json data)
         /\ (forall data, Relay.body Json response = Relay.DataBody Json data ->
                          Relay.status Json response = 200%N
                          /\ exists fields upstream,
                               request_json = inl (Some fields)
                               /\ Relay.complete fields = true
                               /\ oracle 1%nat (Relay.Upstream
                                                  (Relay.chat_upstream
                                                     NEXT_PUBLIC_BACKEND_URL fields))
                                  = inl upstream
                               /\ Relay.upstream_ok Json upstream = true
                               /\ Relay.json Json upstream = inl data)).
Proof.
  split.
  - intros params effects response E.
    destruct (GET_data params effects response E)
      as [(data & upstream & Hb & Hs & Ho & Hok & Hj)|(error & Hb & Hno)].
    + split.
      * split; [eauto|]. intros _. unfold Relay.answered_ok. now rewrite Hs.
      * intros data' Hb'. rewrite Hb in Hb'. inversion Hb'; subst. eauto.
    + split.
      * split; [congruence|]. intros [data Hd]. congruence.
      * intros data Hd. congruence.
  - intros request_json effects response E.
    destruct (POST_data request_json effects response E)
      as [(data & fields & upstream & Hb & Hs & Hr & Hc & Ho & Hok & Hj)
         |(error & Hb & Hno)].
    + split.
      * split; [eauto|]. intros _. unfold Relay.answered_ok. now rewrite Hs.
      * intros data' Hb'. rewrite Hb in Hb'. inversion Hb'; subst. eauto 10.
    + split.
      * split; [congruence|]. intros [data Hd]. congruence.
      * intros data Hd. congruence.
Qed.

(** X20.  A failure status of the backend is passed on with the backend's text,
    as [{ error: "Backend error: " + text }] under the same status -- unless
    a response with a body cannot be built for that status (304, or a status
    outside 200-599): then the route falls into its catch and answers 500
    "Internal server error". *)
Theorem backend_failure_passes_through :
  (forall (params : Relay.ProjectInfoParams) (upstream : Relay.UpstreamResponse Json)
          (errorText : string),
      Relay.userHash params <> "" -> Relay.projectId params <> "" ->
      oracle 0%nat (Relay.Upstream (Relay.project_upstream NEXT_PUBLIC_BACKEND_URL params))
      = inl upstream ->
      Relay.upstream_ok Json upstream = false ->
      Relay.text Json upstream = inl errorText ->
      snd (Relay.serve_GET Json NEXT_PUBLIC_BACKEND_URL oracle params)
      = inl (if Relay.constructible (Relay.upstream_status Json upstream)
             then {| Relay.status := Relay.upstream_status Json upstream;
                     Relay.body := Relay.ErrorBody Json ("Backend error: " ++ errorText) |}
             else {| Relay.status := 500;
                     Relay.body := Relay.ErrorBody Json "Internal server error" |}))
  /\ (forall (fields : Relay.ChatFields) (upstream : Relay.UpstreamResponse Json)
             (errorText : string),
         Relay.complete fields = true ->
         oracle 1%nat (Relay.Upstream (Relay.chat_upstream NEXT_PUBLIC_BACKEND_URL fields))
         = inl upstream ->
         Relay.upstream_ok Json upstream = false ->
         Relay.text Json upstream = inl errorText ->
         snd (Relay.serve_POST Json NEXT_PUBLIC_BACKEND_URL oracle (inl (Some fields)))
         = inl (if Relay.constructible (Relay.upstream_status Json upstream)
                then {| Relay.status := Relay.upstream_status Json upstream;
                        Relay.body :=
                          Relay.ErrorBody Json ("Backend error: " ++ errorText) |}
                else {| Relay.status := 500;
                        Relay.body := Relay.ErrorBody Json "Internal server error" |})).
Proof.
  split.
  - intros [userHash projectId] upstream errorText Hu Hp Ho Hok Htext.
    simpl in Hu, Hp.
    unfold Relay.serve_GET, Relay.serve, Relay.GET, Relay.NextResponse_json.
    unfold Relay.project_upstream in Ho. cbn in Ho |- *.
    destruct (String.eqb_spec userHash ""); [contradiction|].
    destruct (String.eqb_spec projectId ""); [contradiction|].
    cbn. rewrite Ho. cbn. rewrite Hok. cbn. rewrite Htext. cbn.
    destruct (Relay.constructible (Relay.upstream_status Json upstream));
      reflexivity.
  - intros [user_hash project_id query] upstream errorText Hc Ho Hok Htext.
    unfold Relay.complete in Hc. cbn in Hc.
    apply andb_true_iff in Hc as [Hc Hq]. apply andb_true_iff in Hc as [Hu Hp].
    unfold Relay.serve_POST, Relay.serve, Relay.POST, Relay.NextResponse_json.
    unfold Relay.chat_upstream in Ho. cbn in Ho |- *.
    rewrite Hu, Hp, Hq. cbn. rewrite Ho. cbn. rewrite Hok. cbn. rewrite Htext. cbn.
    destruct (Relay.constructible (Relay.upstream_status Json upstream));
      reflexivity.
Qed.

End RelayProps.

(* ================================================================== *)
(** ** The hook behind the chat route *)
(* ================================================================== *)

Section EndToEnd.

Import useCustomChat.

Variable env : Env.
Variable NEXT_PUBLIC_BACKEND_URL : option string.
Variable oracle : Oracle Relay.Effect (Relay.Result ChatResponse.t).

Lemma delivered_failure (relayed : Relay.NextResponse ChatResponse.t)
    (received : Response ChatResponse.t) :
  delivered relayed received ->
  Relay.answered_ok _ relayed = false ->
  ok received = false.
Proof.
  intros [Hs _] Hno. unfold ok. rewrite Hs. exact Hno.
Qed.

(** X21.  When the hook's chat request goes through the chat route and the route
    does not pass on a document of the backend -- the validation failed, the
    backend failed, was unreachable or unreadable -- the turn ends with the
    question in the history, no ai message, the flag released, and the error
    "Chat request failed: " followed by the status text received. *)
Theorem relay_failure_reaches_hook (pathname : string) (documentName : option string)
    (messageText : string) (w : World State) (chatParams : ChatParams)
    (effects : list Relay.Effect) (relayed : Relay.NextResponse ChatResponse.t)
    (received : Response ChatResponse.t) :
  getChatParams pathname = Some chatParams ->
  Relay.serve_POST ChatResponse.t NEXT_PUBLIC_BACKEND_URL oracle
                   (inl (Some (posted_fields chatParams messageText)))
  = (effects, inl relayed) ->
  delivered relayed received ->
  net env (List.length (requests w)) (chat_request chatParams messageText)
  = inl received ->
  (forall data, Relay.body _ relayed <> Relay.DataBody _ data) ->
  let s' := state (exec env (sendMessage pathname documentName messageText) w) in
  messages s'
  = (messages (state w) ++ [human_message (clock env (ticks w)) messageText])%list
  /\ error s' = Some ("Chat request failed: " ++ statusText received)
  /\ isLoading s' = false.
Proof.
  intros Hres Hserve Hdel Hnet Hnodata s'. subst s'. unfold exec.
  assert (Hno : ok received = false).
  { apply (delivered_failure relayed received Hdel).
    destruct (POST_data ChatResponse.t NEXT_PUBLIC_BACKEND_URL oracle _ _ _ Hserve)
      as [(data & fields & upstream & Hb & _)|(error & _ & Hno)];
      [exfalso; exact (Hnodata data Hb)|exact Hno]. }
  destruct (sendMessage_settles env pathname documentName messageText w chatParams Hres)
    as (w' & -> & _ & _ & Hl & He & Hm).
  rewrite Hnet in He, Hm. unfold turn_error in He, Hm. rewrite Hno in He, Hm.
  simpl. repeat split; assumption.
Qed.

(** X22.  An empty question, or a path whose owner hash or session id is empty,
    never reaches the backend: the route answers 400 without any request,
    and the hook ends the turn with the question in the history, no ai
    message and the error "Chat request failed: " + status text. *)
Theorem incomplete_turn_is_refused (pathname : string) (documentName : option string)
    (messageText : string) (w : World State) (chatParams : ChatParams)
    (received : Response ChatResponse.t) :
  getChatParams pathname = Some chatParams ->
  messageText = "" \/ user_hash chatParams = "" \/ project_id chatParams = "" ->
  let served := Relay.serve_POST ChatResponse.t NEXT_PUBLIC_BACKEND_URL oracle
                                 (inl (Some (posted_fields chatParams messageText))) in
  (forall relayed, snd served = inl relayed -> delivered relayed received) ->
  net env (List.length (requests w)) (chat_request chatParams messageText)
  = inl received ->
  let s' := state (exec env (sendMessage pathname documentName messageText) w) in
  fst served = []
  /\ status received = 400%N
  /\ messages s'
     = (messages (state w) ++ [human_message (clock env (ticks w)) messageText])%list
  /\ error s' = Some ("Chat request failed: " ++ statusText received)
  /\ isLoading s' = false.
Proof.
  intros Hres Hempty served Hdel Hnet s'.
  assert (Hc : Relay.complete (posted_fields chatParams messageText) = false).
  { unfold Relay.complete, posted_fields. cbn.
    destruct Hempty as [->|[->| ->]]; cbn;
      rewrite ?andb_false_r; reflexivity. }
  assert (Hserved :
            served = ([], inl {| Relay.status := 400;
                                 Relay.body :=
                                   Relay.ErrorBody ChatResponse.t
                                     "Missing required fields: user_hash, project_id, or query" |})).
  { subst served.
    destruct (posted_fields chatParams messageText) as [u p q] eqn:Ef.
    unfold Relay.complete in Hc. cbn in Hc.
    unfold Relay.serve_POST, Relay.serve, Relay.POST, Relay.NextResponse_json. cbn.
    destruct (JS.truthy u), (JS.truthy p), (JS.truthy q);
      try discriminate; reflexivity. }
  specialize (Hdel _ (f_equal snd Hserved)).
  assert (Hno : ok received = false).
  { apply (delivered_failure _ received Hdel). reflexivity. }
  subst s'. unfold exec.
  destruct (sendMessage_settles env pathname documentName messageText w chatParams Hres)
    as (w' & -> & _ & _ & Hl & He & Hm).
  rewrite Hnet in He, Hm. unfold turn_error in He, Hm. rewrite Hno in He, Hm.
  rewrite Hserved. simpl.
  repeat split; try assumption. exact (proj1 Hdel).
Qed.

End EndToEnd.

(* ================================================================== *)
(** ** The privacy overlay *)
(* ================================================================== *)

Section Overlay.

Import PrivacyOverlay.

Lemma trimStart_head (s : JSString) :
  trimStart s = []
  \/ exists c rest, trimStart s = c :: rest /\ is_white_space c = false.
Proof.
  induction s as [|c s IH]; [now left|].
  simpl. destruct (is_white_space c) eqn:Hc; [exact IH|].
  right. now exists c, s.
Qed.

Lemma trimStart_nil (s : JSString) : trimStart s = [] <-> blank s = true.
Proof.
  unfold blank. induction s as [|c s IH]; simpl; [tauto|].
  destruct (is_white_space c); simpl; [exact IH|].
  split; discriminate.
Qed.

Lemma blank_rev (s : JSString) : blank (rev s) = blank s.
Proof.
  unfold blank. induction s as [|c s IH]; [reflexivity|].
  simpl. rewrite forallb_app, IH. simpl. rewrite andb_true_r. apply andb_comm.
Qed.

(** [trim] leaves nothing exactly of the strings that are white space
    throughout. *)
Lemma trim_nil (s : JSString) : trim s = [] <-> blank s = true.
Proof.
  unfold trim, trimEnd. split.
  - intros H.
    assert (H' : trimStart (rev (trimStart s)) = []).
    { apply (f_equal (@rev N)) in H. now rewrite rev_involutive in H. }
    apply trimStart_nil in H'. rewrite blank_rev in H'.
    destruct (trimStart_head s) as [E|(c & rest & E & Hc)].
    + now apply trimStart_nil.
    + rewrite E in H'. unfold blank in H'. simpl in H'. now rewrite Hc in H'.
  - intros H. apply trimStart_nil in H. now rewrite H.
Qed.

Variable NEXT_PUBLIC_FORMSPARK_URL : option string.
Variable oracle : Oracle Effect Result.

(** X23.  Submitting the overlay, for every email typed and every way the post can
    settle.  White space alone is ignored: nothing is posted and the state
    is untouched.  Otherwise the email is posted once, exactly as typed (not
    trimmed); when the post resolves -- with whatever HTTP status --
    the overlay shows its thanks and a timer closes it after 2000 ms; when it
    rejects, the failure is alerted.  The handler never rejects and the
    submitting flag is released on both exits. *)
Theorem overlay_submit_outcome (typed : JSString) (s : State) :
  let form := {| body_email := typed; interest := "self-hosted-version";
                 source := "privacy-overlay" |} in
  let post := PostForm (FORMSPARK_ACTION_URL NEXT_PUBLIC_FORMSPARK_URL) form in
  play oracle (onSubmit NEXT_PUBLIC_FORMSPARK_URL typed) s []
  = if blank typed then (s, [PreventDefault], inl tt)
    else match oracle 1%nat post with
         | inl _ =>
             ({| email := email s; submitting := false; submitted := true |},
              [PreventDefault; post; SetTimeout_onClose 2000], inl tt)
         | inr _ =>
             ({| email := email s; submitting := false; submitted := submitted s |},
              [PreventDefault; post; ConsoleError "Form submission failed:";
               Alert "Failed to submit. Please try again."], inl tt)
         end.
Proof.
  intros form post. subst post form. unfold onSubmit. cbn.
  destruct (blank typed) eqn:Hb.
  - apply trim_nil in Hb. rewrite Hb. reflexivity.
  - destruct (trim typed) as [|c rest] eqn:Ht.
    + apply trim_nil in Ht. congruence.
    + cbn. destruct (oracle 1%nat _) as [st|err]; reflexivity.
Qed.

End Overlay.

(* ================================================================== *)
(** ** The share page *)
(* ================================================================== *)

Section Share.

Import SharePage.

Variable oracle : Oracle Effect Result.

(** X24.  Copying the link.  When the clipboard API takes the text, the page shows
    "Copied!" and sets one timer of 2000 ms.  When it rejects (or is
    missing), the textarea fallback runs with the same text and -- provided
    its DOM calls do not throw -- the page shows "Copied!" all the same,
    whether or not [execCommand('copy')] reported success.  When the timer
    fires, "Copied!" is taken back. *)
Theorem copy_link_outcome (chatUrl : string) (s : State) :
  fallback_available oracle ->
  exists effects s',
    play oracle (handleCopyLink chatUrl) s [] = (s', effects, inl tt)
    /\ copied s' = true
    /\ timers effects = [2000%N]
    /\ effects
       = match oracle 0%nat (ClipboardWriteText chatUrl) with
         | inl _ => [ClipboardWriteText chatUrl; SetTimeout_resetCopied 2000]
         | inr _ =>
             [ClipboardWriteText chatUrl; ConsoleError "Failed to copy link:";
              CreateTextArea; SetValue chatUrl; AppendChild; Select;
              ExecCommand "copy"; RemoveChild; SetTimeout_resetCopied 2000]
         end
    /\ forall effects', copied (fst (fst (play oracle resetCopied s' effects'))) = false.
Proof.
  intros Hdom. unfold handleCopyLink. cbn.
  destruct (oracle 0%nat (ClipboardWriteText chatUrl)) as [[]|err]; cbn.
  - do 2 eexists. split; [reflexivity|]. repeat split.
  - destruct (Hdom 2%nat CreateTextArea) as [[] ->]. cbn.
    destruct (Hdom 3%nat (SetValue chatUrl)) as [[] ->]. cbn.
    destruct (Hdom 4%nat AppendChild) as [[] ->]. cbn.
    destruct (Hdom 5%nat Select) as [[] ->]. cbn.
    destruct (Hdom 6%nat (ExecCommand "copy")) as [done ->]. cbn.
    destruct (Hdom 7%nat RemoveChild) as [[] ->]. cbn.
    do 2 eexists. split; [reflexivity|]. repeat split.
Qed.

End Share.

(* ================================================================== *)
(** ** The further properties at concrete inputs *)
(* ================================================================== *)

Section MoreInstances.

Import useCustomChat.

(** X1 at a concrete input. *)
Lemma sendMessage_outcome_witness :
  getChatParams "/chat/abc/123" = Some abc_123
  /\ error (state (exec failing_env (sendMessage "/chat/abc/123" None question)
                        (boot initial)))
     = Some "Chat request failed: Internal Server Error".
Proof.
  split; [reflexivity|].
  exact (proj1 (sendMessage_outcome failing_env "/chat/abc/123" None question
                  (boot initial) abc_123 eq_refl)).
Defined.

(** X2 at a concrete input. *)
Lemma sendMessage_pending_witness :
  getChatParams "/chat/abc/123" = Some abc_123
  /\ exists pending k,
       advance failing_env (sendMessage "/chat/abc/123" None question) (boot initial)
       = (pending, Pending (chat_request abc_123 question) k)
       /\ messages (state pending) = [human_message 1700000000000 question]
       /\ isLoading (state pending) = true
       /\ error (state pending) = None
       /\ documentName (state pending) = None
       /\ requests pending = [chat_request abc_123 question].
Proof.
  split; [reflexivity|].
  exact (sendMessage_pending failing_env "/chat/abc/123" None question
           (boot initial) abc_123 eq_refl).
Defined.

(** X6 at a concrete input. *)
Lemma session_keeps_documentName_witness :
  documentName (state (world (session sample_env "/chat/abc/123" []))) <> None
  /\ documentName (state (world (session sample_env "/chat/abc/123"
                                        ([] ++ [Send question])))) <> None.
Proof.
  assert (H : documentName (state (world (session sample_env "/chat/abc/123" [])))
              <> None) by discriminate.
  split; [exact H|].
  exact (session_keeps_documentName sample_env "/chat/abc/123" [] [Send question] H).
Defined.

(** X7 at a concrete input. *)
Lemma unresolved_session_is_inert_witness :
  getChatParams "/chat/abc" = None
  /\ requests (world (session sample_env "/chat/abc" [Send question; Send question])) = []
  /\ messages (state (world (session sample_env "/chat/abc"
                                     [Send question; Send question]))) = []
  /\ isLoading (state (world (session sample_env "/chat/abc"
                                      [Send question; Send question]))) = false
  /\ documentName (state (world (session sample_env "/chat/abc"
                                         [Send question; Send question]))) = None
  /\ error (state (world (session sample_env "/chat/abc"
                                  [Send question; Send question])))
     = Some "Invalid chat URL format".
Proof.
  split; [reflexivity|].
  apply (unresolved_session_is_inert sample_env "/chat/abc"
           [Send question; Send question] eq_refl).
  repeat constructor.
Defined.

(** X14 at a concrete input. *)
Lemma LandingPage_upload_release_witness :
  (File.size sample_file <= size_limit)%N
  /\ exists w',
       run sample_env (LandingPage.handleFileUpload DemoPage.handleFileUpload sample_file)
           (boot DemoPage.initial)
       = (w', inl tt)
       /\ uploading (state w') = false
       /\ uploadingFileName (state w') = ""
       /\ appState (state w') = share
       /\ chatId (state w') = Some "/chat/abc/123"
       /\ requests w' = [POST_api_create (create_form sample_file)]
       /\ alerts w' = [].
Proof.
  assert (H : (File.size sample_file <= size_limit)%N) by (apply N.leb_le; reflexivity).
  split; [exact H|].
  exact (LandingPage_upload_release sample_env DemoPage.handleFileUpload sample_file
           (boot DemoPage.initial) H).
Defined.

(** X15 at a concrete input. *)
Lemma drop_uploads_first_pdf_witness :
  requests (exec sample_env
              (LandingPage.handleDrop DemoPage.handleFileUpload
                 ([notes_file] ++ sample_file :: [notes_file]))
              (boot DemoPage.initial))
  = [POST_api_create (create_form sample_file)].
Proof.
  apply (drop_uploads_first_pdf sample_env [notes_file] [notes_file] sample_file
           (boot DemoPage.initial)).
  - repeat constructor.
  - reflexivity.
  - apply N.leb_le. reflexivity.
Defined.

(** X11 at a concrete input. *)
Lemma chat_page_is_fixed_witness :
  page sample_env "/chat/abc/123" [Drop [sample_file]; CreateNew]
  = mountPage sample_env "/chat/abc/123"
  /\ appState (state (page sample_env "/chat/abc/123" [Drop [sample_file]; CreateNew]))
     = chat
  /\ chatId (state (page sample_env "/chat/abc/123" [Drop [sample_file]; CreateNew]))
     = Some "/chat/abc/123"
  /\ requests (page sample_env "/chat/abc/123" [Drop [sample_file]; CreateNew]) = [].
Proof.
  exact (chat_page_is_fixed sample_env "/chat/abc/123"
           [Drop [sample_file]; CreateNew] eq_refl).
Defined.

(** X10 at a concrete input. *)
Lemma resolvable_path_opens_chat_witness :
  appState (state (mountPage sample_env "/chat/abc/123")) = chat
  /\ chatId (state (mountPage sample_env "/chat/abc/123")) = Some "/chat/abc/123".
Proof.
  apply (resolvable_path_opens_chat sample_env "/chat/abc/123"); [reflexivity|].
  discriminate.
Defined.

(** X8 at a concrete input. *)
Lemma trailing_segments_are_ignored_witness :
  getChatParams "/chat/abc/123" <> None
  /\ getChatParams ("/chat/abc/123" ++ "/" ++ "settings/x")
     = getChatParams "/chat/abc/123".
Proof.
  assert (H : getChatParams "/chat/abc/123" <> None) by discriminate.
  split; [exact H|].
  exact (trailing_segments_are_ignored "/chat/abc/123" "settings/x" H).
Defined.

(** X18 at a concrete input. *)
Lemma routes_reject_incomplete_input_witness :
  Relay.serve_GET ChatResponse.t None upstream_up
                  {| Relay.userHash := "abc"; Relay.projectId := "" |}
  = ([], inl {| Relay.status := 400;
                Relay.body := Relay.ErrorBody _ "Missing userHash or projectId" |})
  /\ Relay.serve_POST ChatResponse.t None upstream_up
                      (inl (Some (posted_fields abc_123 "")))
     = ([], inl {| Relay.status := 400;
                   Relay.body :=
                     Relay.ErrorBody _
                       "Missing required fields: user_hash, project_id, or query" |}).
Proof.
  split.
  - apply (proj1 (routes_reject_incomplete_input ChatResponse.t None upstream_up)).
    right. reflexivity.
  - apply (proj2 (routes_reject_incomplete_input ChatResponse.t None upstream_up)).
    reflexivity.
Defined.

(** X19 at a concrete input. *)
Lemma route_success_is_backend_data_witness :
  Relay.serve_GET ChatResponse.t None upstream_up sample_params
  = ([Relay.Upstream (Relay.project_upstream None sample_params)],
     inl {| Relay.status := 200; Relay.body := Relay.DataBody _ sample_data |})
  /\ (Relay.answered_ok _ {| Relay.status := 200;
                             Relay.body := Relay.DataBody _ sample_data |} = true
      <-> exists data,
            Relay.body _ {| Relay.status := 200;
                            Relay.body := Relay.DataBody ChatResponse.t sample_data |}
            = Relay.DataBody _ data).
Proof.
  split; [reflexivity|].
  exact (proj1 (proj1 (route_success_is_backend_data ChatResponse.t None upstream_up)
                  sample_params
                  [Relay.Upstream (Relay.project_upstream None sample_params)]
                  {| Relay.status := 200; Relay.body := Relay.DataBody _ sample_data |}
                  eq_refl)).
Defined.

(** X20 at a concrete input. *)
Lemma backend_failure_passes_through_witness :
  snd (Relay.serve_GET ChatResponse.t None upstream_down sample_params)
  = inl {| Relay.status := 503;
           Relay.body := Relay.ErrorBody _ "Backend error: overloaded" |}
  /\ snd (Relay.serve_POST ChatResponse.t None upstream_down
                           (inl (Some (posted_fields abc_123 question))))
     = inl {| Relay.status := 503;
              Relay.body := Relay.ErrorBody _ "Backend error: overloaded" |}.
Proof.
  split.
  - refine (proj1 (backend_failure_passes_through ChatResponse.t None upstream_down)
              sample_params _ "overloaded" _ _ eq_refl eq_refl eq_refl);
      discriminate.
  - exact (proj2 (backend_failure_passes_through ChatResponse.t None upstream_down)
             (posted_fields abc_123 question) _ "overloaded"
             eq_refl eq_refl eq_refl eq_refl).
Defined.

(** X21 at a concrete input. *)
Lemma relay_failure_reaches_hook_witness :
  messages (state (exec (chat_status_env 503 "Service Unavailable")
                        (sendMessage "/chat/abc/123" None question) (boot initial)))
  = [human_message 1700000000000 question]
  /\ error (state (exec (chat_status_env 503 "Service Unavailable")
                        (sendMessage "/chat/abc/123" None question) (boot initial)))
     = Some "Chat request failed: Service Unavailable"
  /\ isLoading (state (exec (chat_status_env 503 "Service Unavailable")
                            (sendMessage "/chat/abc/123" None question)
                            (boot initial)))
     = false.
Proof.
  refine (relay_failure_reaches_hook (chat_status_env 503 "Service Unavailable")
            None upstream_down "/chat/abc/123" None question (boot initial) abc_123
            _ _ (received_status 503 "Service Unavailable")
            eq_refl eq_refl _ eq_refl _).
  - split; [reflexivity|]. discriminate.
  - discriminate.
Defined.

(** X22 at a concrete input. *)
Lemma incomplete_turn_is_refused_witness :
  fst (Relay.serve_POST ChatResponse.t None upstream_up
                        (inl (Some (posted_fields abc_123 "")))) = []
  /\ status (received_status 400 "Bad Request") = 400%N
  /\ messages (state (exec (chat_status_env 400 "Bad Request")
                           (sendMessage "/chat/abc/123" None "") (boot initial)))
     = [human_message 1700000000000 ""]
  /\ error (state (exec (chat_status_env 400 "Bad Request")
                        (sendMessage "/chat/abc/123" None "") (boot initial)))
     = Some "Chat request failed: Bad Request"
  /\ isLoading (state (exec (chat_status_env 400 "Bad Request")
                            (sendMessage "/chat/abc/123" None "") (boot initial)))
     = false.
Proof.
  refine (incomplete_turn_is_refused (chat_status_env 400 "Bad Request")
            None upstream_up "/chat/abc/123" None "" (boot initial) abc_123
            (received_status 400 "Bad Request") eq_refl (or_introl eq_refl) _ eq_refl).
  intros relayed E. inversion E; subst. split; [reflexivity|]. discriminate.
Defined.

(** X24 at a concrete input. *)
Lemma copy_link_outcome_witness :
  SharePage.fallback_available no_clipboard
  /\ exists effects s',
       play no_clipboard (SharePage.handleCopyLink "https://x/chat/abc/123")
            {| SharePage.copied := false |} []
       = (s', effects, inl tt)
       /\ SharePage.copied s' = true
       /\ SharePage.timers effects = [2000%N].
Proof.
  assert (H : SharePage.fallback_available no_clipboard).
  { intros n e. destruct e; try exact I; eexists; reflexivity. }
  split; [exact H|].
  destruct (copy_link_outcome no_clipboard "https://x/chat/abc/123"
              {| SharePage.copied := false |} H)
    as (effects & s' & E & Hc & Ht & _).
  exists effects, s'. auto.
Defined.

End MoreInstances.
